(** * Environmental monitoring core: threshold classification, audit,
      calibration scheduling and reports

    A shallow embedding of [app/environment/queries.py] and of the handlers
    of [app/environment/api.py] that wrap it.  The SQLAlchemy session is a
    small state-and-exception monad over an explicit store; tables are
    finite maps keyed by their primary key; SQL result sets are lists. *)

From Stdlib Require Import ZArith Floats Sorted.
From stdpp Require Import gmap strings list.

Local Open Scope Z_scope.

(** ** Time *)

(** A naive [datetime] is a count of microseconds; so is a [timedelta].
    Columns keep the precision Python hands over. *)
Definition datetime : Type := Z.
Definition timedelta : Type := Z.

Definition usec_per_day : Z := 86400000000.

(** [timedelta(days=n)] *)
Definition timedelta_of_days (n : Z) : timedelta := n * usec_per_day.

(** [td.days]: Python normalises a timedelta with a floor division, so the
    day component of a negative delta is negative. *)
Definition timedelta_days (td : timedelta) : Z := td / usec_per_day.

(** SQL Server's [DATEDIFF(day, a, b)]: the number of midnights crossed
    between [a] and [b], not the number of elapsed 24-hour periods. *)
Definition datediff_day (a b : datetime) : Z :=
  b / usec_per_day - a / usec_per_day.

(** ** Python and SQL scalars *)

(** [x or d] on an optional integer: [None] and [0] are both falsy. *)
Definition py_or (x : option Z) (d : Z) : Z :=
  match x with
  | None => d
  | Some v => if v =? 0 then d else v
  end.

(** SQL comparisons and connectives are three-valued; [None] is UNKNOWN.
    A WHERE clause keeps a row only when its condition is TRUE. *)
Definition sql_gt (a b : option Z) : option bool :=
  match a, b with
  | Some x, Some y => Some (x >? y)
  | _, _ => None
  end.

Definition sql_or (a b : option bool) : option bool :=
  match a, b with
  | Some true, _ | _, Some true => Some true
  | Some false, Some false => Some false
  | _, _ => None
  end.

Definition sql_is_null {A} (a : option A) : option bool :=
  Some (match a with None => true | Some _ => false end).

Definition sql_true (c : option bool) : bool :=
  match c with Some true => true | _ => false end.

(** ** Rows *)

(** 环境监测指标表 *)
Record MonitorIndexRow := mkIndex {
  idx_index_id : string;
  idx_index_name : string;
  idx_unit : string;
  idx_upper_threshold : float;
  idx_lower_threshold : float;
  idx_monitor_frequency : string;
  idx_created_at : option datetime;
  idx_updated_at : option datetime
}.

(** Modelled from the spec: the declaration of 监测设备表 lives in
    [app.shared.models]; its columns are the ones
    [create_monitor_device] fills and [schemas.MonitorDevice] returns.
    The status is a string (normal, fault, offline or free text); the
    calibration cycle is nullable, as in [schemas.MonitorDevice]. *)
Record DeviceRow := mkDevice {
  dev_id : Z;
  dev_type : string;
  dev_deployment_area_id : option Z;
  dev_install_time : option datetime;
  dev_calibration_cycle : option Z;
  dev_last_calibration_time : option datetime;
  dev_status : string;
  dev_communication_protocol : option string;
  dev_latitude : option float;
  dev_longitude : option float;
  dev_created_at : option datetime;
  dev_updated_at : option datetime
}.

(** Modelled from the spec: the declaration of 区域表 lives in
    [app.shared.models]; the queries read its id, name and type. *)
Record AreaRow := mkArea {
  area_id : Z;
  area_name : string;
  area_type : string
}.

(** 环境监测数据表; the BIT column [is_abnormal] is a boolean. *)
Record DataRow := mkData {
  dat_data_id : string;
  dat_index_id : string;
  dat_device_id : Z;
  dat_collect_time : datetime;
  dat_monitor_value : float;
  dat_area_id : Z;
  dat_data_quality : string;
  dat_is_abnormal : bool;
  dat_abnormal_reason : option string;
  dat_audit_status : string;
  dat_created_at : option datetime;
  dat_updated_at : option datetime
}.

(** 设备校准记录表 *)
Record CalibrationRow := mkCalibration {
  cal_record_id : string;
  cal_device_id : Z;
  cal_calibration_time : datetime;
  cal_calibrator_id : Z;
  cal_calibration_result : string;
  cal_calibration_desc : option string;
  cal_created_at : option datetime;
  cal_updated_at : option datetime
}.

(** Column defaults of 环境监测数据表 ([models.py]). *)
Definition audit_status_default : string := "未审核".

(** ** The store and the session *)

Record Store := mkStore {
  indices : gmap string MonitorIndexRow;
  devices : gmap Z DeviceRow;
  areas : gmap Z AreaRow;
  env_data : gmap string DataRow;
  calibrations : gmap string CalibrationRow
}.

Inductive exn :=
| IntegrityError
| InvalidRequestError
| HTTPException (status_code : Z) (detail : string).

Inductive outcome (A : Type) :=
| Ok (a : A)
| Raise (e : exn).
Arguments Ok {A} a.
Arguments Raise {A} e.

(** A session holds the committed store, which is all another
    transaction can see, and its own working copy with the writes
    it has not committed.  [flush_error] records that a pending INSERT
    reuses a primary key: the flush at commit time will fail.
    [commit_log] keeps every snapshot the session has made visible,
    newest first.  [clock] is the sequence of readings that
    successive calls of [datetime.now()] return. *)
Record Session := mkSession {
  committed : Store;
  working : Store;
  flush_error : bool;
  commit_log : list Store;
  clock : nat -> datetime;
  ticks : nat
}.

Definition db (A : Type) : Type := Session -> outcome A * Session.

#[global] Instance db_ret : MRet db := fun A a s => (Ok a, s).
#[global] Instance db_bind : MBind db := fun A B f m s =>
  match m s with
  | (Ok a, s') => f a s'
  | (Raise e, s') => (Raise e, s')
  end.

#[global] Instance db_fmap : FMap db := fun A B f m s =>
  match m s with
  | (Ok a, s') => (Ok (f a), s')
  | (Raise e, s') => (Raise e, s')
  end.

Definition raise {A} (e : exn) : db A := fun s => (Raise e, s).

(** A request starts from a fresh session on the committed store. *)
Definition open_session (st : Store) (clk : nat -> datetime) : Session :=
  mkSession st st false [] clk 0.

(** [datetime.now()] *)
Definition datetime_now : db datetime := fun s =>
  (Ok (clock s (ticks s)),
   mkSession (committed s) (working s) (flush_error s) (commit_log s)
             (clock s) (S (ticks s))).

Definition with_working (f : Store -> Store) (s : Session) : Session :=
  mkSession (committed s) (f (working s)) (flush_error s) (commit_log s)
            (clock s) (ticks s).

Definition mark_flush_error (s : Session) : Session :=
  mkSession (committed s) (working s) true (commit_log s) (clock s) (ticks s).

(** [db.get(Table, key)] *)
Definition get_index_row (k : string) : db (option MonitorIndexRow) :=
  fun s => (Ok (indices (working s) !! k), s).
Definition get_device_row (k : Z) : db (option DeviceRow) :=
  fun s => (Ok (devices (working s) !! k), s).
Definition get_data_row (k : string) : db (option DataRow) :=
  fun s => (Ok (env_data (working s) !! k), s).
Definition get_calibration_row (k : string) : db (option CalibrationRow) :=
  fun s => (Ok (calibrations (working s) !! k), s).

Definition set_indices (m : gmap string MonitorIndexRow) (st : Store) : Store :=
  mkStore m (devices st) (areas st) (env_data st) (calibrations st).
Definition set_devices (m : gmap Z DeviceRow) (st : Store) : Store :=
  mkStore (indices st) m (areas st) (env_data st) (calibrations st).
Definition set_env_data (m : gmap string DataRow) (st : Store) : Store :=
  mkStore (indices st) (devices st) (areas st) m (calibrations st).
Definition set_calibrations (m : gmap string CalibrationRow) (st : Store) : Store :=
  mkStore (indices st) (devices st) (areas st) (env_data st) m.

(** [db.add(obj)]: the INSERT is pending until the flush; one that reuses
    a primary key dooms the flush. *)
Definition add_index (r : MonitorIndexRow) : db unit := fun s =>
  match indices (working s) !! idx_index_id r with
  | Some _ => (Ok tt, mark_flush_error s)
  | None =>
      (Ok tt, with_working
                (fun st => set_indices (<[idx_index_id r := r]> (indices st)) st) s)
  end.
Definition add_data (r : DataRow) : db unit := fun s =>
  match env_data (working s) !! dat_data_id r with
  | Some _ => (Ok tt, mark_flush_error s)
  | None =>
      (Ok tt, with_working
                (fun st => set_env_data (<[dat_data_id r := r]> (env_data st)) st) s)
  end.
Definition add_calibration (r : CalibrationRow) : db unit := fun s =>
  match calibrations (working s) !! cal_record_id r with
  | Some _ => (Ok tt, mark_flush_error s)
  | None =>
      (Ok tt, with_working
                (fun st =>
                   set_calibrations (<[cal_record_id r := r]> (calibrations st)) st) s)
  end.

(** Assigning to attributes of an object loaded under key [k]: the row is
    dirty in the session and the next flush updates it in place. *)
Definition write_device_at (k : Z) (r : DeviceRow) : db unit := fun s =>
  (Ok tt, with_working (fun st => set_devices (<[k := r]> (devices st)) st) s).
Definition write_data_at (k : string) (r : DataRow) : db unit := fun s =>
  (Ok tt, with_working (fun st => set_env_data (<[k := r]> (env_data st)) st) s).

(** [db.commit()]: flush and commit everything pending as one
    transaction, or roll all of it back and raise. *)
Definition commit : db unit := fun s =>
  if flush_error s then
    (Raise IntegrityError,
     mkSession (committed s) (committed s) false (commit_log s)
               (clock s) (ticks s))
  else
    (Ok tt,
     mkSession (working s) (working s) false (working s :: commit_log s)
               (clock s) (ticks s)).

(** [db.refresh(obj)]: reload the row by its primary key. *)
Definition refresh_index (k : string) : db MonitorIndexRow := fun s =>
  match indices (working s) !! k with
  | Some r => (Ok r, s)
  | None => (Raise InvalidRequestError, s)
  end.
Definition refresh_data (k : string) : db DataRow := fun s =>
  match env_data (working s) !! k with
  | Some r => (Ok r, s)
  | None => (Raise InvalidRequestError, s)
  end.
Definition refresh_calibration (k : string) : db CalibrationRow := fun s =>
  match calibrations (working s) !! k with
  | Some r => (Ok r, s)
  | None => (Raise InvalidRequestError, s)
  end.

(** [db.scalars(select(监测设备表).where(p)).all()] *)
Definition select_devices (p : DeviceRow -> bool) : db (list DeviceRow) :=
  fun s => (Ok (List.filter p (map_to_list (devices (working s))).*2), s).

(** ** Request schemas ([schemas.py]) *)

Record MonitorIndexCreate := mkIndexCreate {
  mic_index_id : string;
  mic_index_name : string;
  mic_unit : string;
  mic_upper_threshold : float;
  mic_lower_threshold : float;
  mic_monitor_frequency : string
}.

(** A field of a PATCH body: absent, or present with a value or null. *)
Inductive field (A : Type) :=
| Unset
| Given (v : option A).
Arguments Unset {A}.
Arguments Given {A} v.

Record MonitorIndexUpdate := mkIndexUpdate {
  miu_index_name : field string;
  miu_unit : field string;
  miu_upper_threshold : field float;
  miu_lower_threshold : field float;
  miu_monitor_frequency : field string
}.

Record EnvironmentDataCreate := mkDataCreate {
  edc_data_id : option string;
  edc_index_id : string;
  edc_device_id : Z;
  edc_collect_time : datetime;
  edc_monitor_value : float;
  edc_area_id : Z;
  edc_data_quality : string
}.

Record CalibrationRecordCreate := mkCalibrationCreate {
  crc_record_id : option string;
  crc_device_id : Z;
  crc_calibration_time : datetime;
  crc_calibrator_id : Z;
  crc_calibration_result : string;
  crc_calibration_desc : option string
}.

(** The values a [Dict[str, Any]] built from a validated body can hold. *)
Inductive py_value :=
| PyNone
| PyStr (s : string)
| PyFloat (f : float)
| PyDatetime (t : datetime).

(** [payload.model_dump(exclude_unset=True)]: the fields the body set, in
    declaration order. *)
Definition dump_field {A} (name : string) (inj : A -> py_value) (f : field A)
  : list (string * py_value) :=
  match f with
  | Unset => []
  | Given None => [(name, PyNone)]
  | Given (Some v) => [(name, inj v)]
  end.

Definition model_dump_exclude_unset (p : MonitorIndexUpdate)
  : list (string * py_value) :=
  dump_field "index_name" PyStr (miu_index_name p)
  ++ dump_field "unit" PyStr (miu_unit p)
  ++ dump_field "upper_threshold" PyFloat (miu_upper_threshold p)
  ++ dump_field "lower_threshold" PyFloat (miu_lower_threshold p)
  ++ dump_field "monitor_frequency" PyStr (miu_monitor_frequency p).

(** [setattr(db_index, key, value)] on a mapped indicator.  A key that is no
    column only decorates the Python object; a value whose type does not fit
    the column cannot come out of a validated body and is not stored. *)
Definition setattr_index (r : MonitorIndexRow) (key : string) (v : py_value)
  : MonitorIndexRow :=
  match v with
  | PyStr x =>
      if String.eqb key "index_id" then
        mkIndex x (idx_index_name r) (idx_unit r) (idx_upper_threshold r)
                (idx_lower_threshold r) (idx_monitor_frequency r)
                (idx_created_at r) (idx_updated_at r)
      else if String.eqb key "index_name" then
        mkIndex (idx_index_id r) x (idx_unit r) (idx_upper_threshold r)
                (idx_lower_threshold r) (idx_monitor_frequency r)
                (idx_created_at r) (idx_updated_at r)
      else if String.eqb key "unit" then
        mkIndex (idx_index_id r) (idx_index_name r) x (idx_upper_threshold r)
                (idx_lower_threshold r) (idx_monitor_frequency r)
                (idx_created_at r) (idx_updated_at r)
      else if String.eqb key "monitor_frequency" then
        mkIndex (idx_index_id r) (idx_index_name r) (idx_unit r)
                (idx_upper_threshold r) (idx_lower_threshold r) x
                (idx_created_at r) (idx_updated_at r)
      else r
  | PyFloat x =>
      if String.eqb key "upper_threshold" then
        mkIndex (idx_index_id r) (idx_index_name r) (idx_unit r) x
                (idx_lower_threshold r) (idx_monitor_frequency r)
                (idx_created_at r) (idx_updated_at r)
      else if String.eqb key "lower_threshold" then
        mkIndex (idx_index_id r) (idx_index_name r) (idx_unit r)
                (idx_upper_threshold r) x (idx_monitor_frequency r)
                (idx_created_at r) (idx_updated_at r)
      else r
  | PyDatetime t =>
      if String.eqb key "created_at" then
        mkIndex (idx_index_id r) (idx_index_name r) (idx_unit r)
                (idx_upper_threshold r) (idx_lower_threshold r)
                (idx_monitor_frequency r) (Some t) (idx_updated_at r)
      else if String.eqb key "updated_at" then
        mkIndex (idx_index_id r) (idx_index_name r) (idx_unit r)
                (idx_upper_threshold r) (idx_lower_threshold r)
                (idx_monitor_frequency r) (idx_created_at r) (Some t)
      else r
  | PyNone => r
  end.

(** A dirty indicator loaded under key [k]: the UPDATE rewrites the row in
    place, or moves it when its primary key was reassigned. *)
Definition write_index_at (k : string) (r : MonitorIndexRow) : db unit := fun s =>
  if String.eqb (idx_index_id r) k then
    (Ok tt, with_working (fun st => set_indices (<[k := r]> (indices st)) st) s)
  else
    match indices (working s) !! idx_index_id r with
    | Some _ => (Ok tt, mark_flush_error s)
    | None =>
        (Ok tt, with_working
                  (fun st =>
                     set_indices (<[idx_index_id r := r]> (delete k (indices st))) st) s)
    end.

(** ** Stable sorting *)

(** [before y x] says that [y] has to come strictly before [x].  An element
    is inserted in front of the first one that need not precede it, so
    elements that compare equal keep their order: this is the stable
    sort of [list.sort] and the order an ORDER BY allows. *)
Fixpoint insert_by {A} (before : A -> A -> bool) (x : A) (l : list A) : list A :=
  match l with
  | [] => [x]
  | y :: l' => if before y x then y :: insert_by before x l' else x :: y :: l'
  end.

Definition sort_by {A} (before : A -> A -> bool) (l : list A) : list A :=
  foldr (insert_by before) [] l.

(** ** Python floats in the quality report *)

(** [float(n)] for a row count. *)
Definition float_of_count (n : Z) : float := PrimFloat.of_uint63 (Uint63.of_Z n).

(** [n / d] rounded to the nearest integer, ties to the even one ([0 < d]). *)
Definition div_half_even (n d : Z) : Z :=
  let q := n / d in
  let r := n mod d in
  if 2 * r <? d then q
  else if d <? 2 * r then q + 1
  else if Z.even q then q else q + 1.

(** [round(x, 2)]: CPython rounds the exact binary value of [x] to two
    decimals, ties to even, and returns the double nearest to that decimal.
    A float with a non-negative exponent is an integer and is returned as it
    is.  The count of hundredths is converted exactly below 2^53, far above
    the percentages rounded here. *)
Definition py_round2 (x : float) : float :=
  match Prim2SF x with
  | S754_finite sign m e =>
      if 0 <=? e then x
      else
        let hundredths := div_half_even (Z.pos m * 100) (2 ^ (- e)) in
        let magnitude := (float_of_count hundredths / 100)%float in
        if sign then (- magnitude)%float else magnitude
  | _ => x
  end.

(** ** [queries.py]: indicators, devices, readings, calibrations *)

Module EnvironmentQueries.

Definition create_monitor_index (index : MonitorIndexCreate) : db MonitorIndexRow :=
  created ← datetime_now;
  updated ← datetime_now;
  let db_index :=
    mkIndex (mic_index_id index) (mic_index_name index) (mic_unit index)
            (mic_upper_threshold index) (mic_lower_threshold index)
            (mic_monitor_frequency index) (Some created) (Some updated) in
  add_index db_index;;
  commit;;
  refresh_index (idx_index_id db_index).

Definition get_monitor_index (index_id : string) : db (option MonitorIndexRow) :=
  get_index_row index_id.

(** The loop of [update_monitor_index] over [update_data.items()]. *)
Definition apply_update_data (db_index : MonitorIndexRow)
    (update_data : list (string * py_value)) : MonitorIndexRow :=
  foldl (fun row kv =>
           match kv.2 with
           | PyNone => row
           | value => setattr_index row kv.1 value
           end)
        db_index update_data.

Definition update_monitor_index (index_id : string)
    (update_data : list (string * py_value)) : db (option MonitorIndexRow) :=
  found ← get_index_row index_id;
  match found with
  | None => mret None
  | Some db_index =>
      let db_index := apply_update_data db_index update_data in
      now ← datetime_now;
      let db_index := setattr_index db_index "updated_at" (PyDatetime now) in
      write_index_at index_id db_index;;
      commit;;
      Some <$> refresh_index (idx_index_id db_index)
  end.

Definition get_monitor_device (device_id : Z) : db (option DeviceRow) :=
  get_device_row device_id.

(** The test the loop of [get_devices_needing_calibration] applies to each
    device it was handed. *)
Definition needs_calibration (now : datetime) (device : DeviceRow) : bool :=
  match dev_last_calibration_time device with
  | None => true
  | Some last =>
      let days_since := timedelta_days (now - last) in
      days_since >=? py_or (dev_calibration_cycle device) 30
  end.

Definition get_devices_needing_calibration : db (list DeviceRow) :=
  now ← datetime_now;
  all_devices ← select_devices (fun d => negb (String.eqb (dev_status d) "离线"));
  mret (foldl (fun result device =>
                 match dev_last_calibration_time device with
                 | None => result ++ [device]
                 | Some last =>
                     let days_since := timedelta_days (now - last) in
                     if days_since >=? py_or (dev_calibration_cycle device) 30
                     then result ++ [device]
                     else result
                 end)
              [] all_devices).

Section Reasons.

(** How an f-string renders a float ([format(x, '')], the shortest
    decimal that reads back as [x]); it belongs to the Python runtime. *)
Variable float_str : float -> string.

(** The classification block of [create_environment_data]: the flag and
    the reason it computes from the indicator it found, if any. *)
Definition classify_reading (monitor_index : option MonitorIndexRow)
    (monitor_value : float) : bool * option string :=
  match monitor_index with
  | Some mi =>
      if (idx_upper_threshold mi <? monitor_value)%float then
        (true, Some ("监测值" +:+ float_str monitor_value
                      +:+ "超过上限阈值" +:+ float_str (idx_upper_threshold mi)))
      else if (monitor_value <? idx_lower_threshold mi)%float then
        (true, Some ("监测值" +:+ float_str monitor_value
                      +:+ "低于下限阈值" +:+ float_str (idx_lower_threshold mi)))
      else (false, None)
  | None => (false, None)
  end.

Definition create_environment_data (data : EnvironmentDataCreate) : db DataRow :=
  monitor_index ← get_index_row (edc_index_id data);
  let '(is_abnormal, abnormal_reason) :=
    classify_reading monitor_index (edc_monitor_value data) in
  created ← datetime_now;
  updated ← datetime_now;
  match edc_data_id data with
  | None =>
      (* a NULL primary key fails the INSERT *)
      (fun s => (Ok tt, mark_flush_error s));; commit;; raise InvalidRequestError
  | Some data_id =>
      let db_data :=
        mkData data_id (edc_index_id data) (edc_device_id data)
               (edc_collect_time data) (edc_monitor_value data)
               (edc_area_id data) (edc_data_quality data)
               is_abnormal abnormal_reason
               audit_status_default (* not passed: the column default *)
               (Some created) (Some updated) in
      add_data db_data;;
      commit;;
      refresh_data data_id
  end.

End Reasons.

Definition get_environment_data (data_id : string) : db (option DataRow) :=
  get_data_row data_id.

Definition update_data_audit_status (data_id : string) (audit_status : string)
    (abnormal_reason : option string) : db (option DataRow) :=
  found ← get_data_row data_id;
  match found with
  | None => mret None
  | Some db_data =>
      let reason :=
        match abnormal_reason with
        | Some r => Some r
        | None => dat_abnormal_reason db_data
        end in
      now ← datetime_now;
      let db_data :=
        mkData (dat_data_id db_data) (dat_index_id db_data) (dat_device_id db_data)
               (dat_collect_time db_data) (dat_monitor_value db_data)
               (dat_area_id db_data) (dat_data_quality db_data)
               (dat_is_abnormal db_data) reason audit_status
               (dat_created_at db_data) (Some now) in
      write_data_at data_id db_data;;
      commit;;
      Some <$> refresh_data data_id
  end.

Definition create_calibration_record (record : CalibrationRecordCreate)
  : db CalibrationRow :=
  created ← datetime_now;
  updated ← datetime_now;
  device ← get_device_row (crc_device_id record);
  match device with
  | Some device =>
      now ← datetime_now;
      write_device_at (crc_device_id record)
        (mkDevice (dev_id device) (dev_type device) (dev_deployment_area_id device)
                  (dev_install_time device) (dev_calibration_cycle device)
                  (Some (crc_calibration_time record))
                  (dev_status device) (dev_communication_protocol device)
                  (dev_latitude device) (dev_longitude device)
                  (dev_created_at device) (Some now))
  | None => mret tt
  end;;
  match crc_record_id record with
  | None =>
      (fun s => (Ok tt, mark_flush_error s));; commit;; raise InvalidRequestError
  | Some record_id =>
      add_calibration
        (mkCalibration record_id (crc_device_id record)
                       (crc_calibration_time record) (crc_calibrator_id record)
                       (crc_calibration_result record) (crc_calibration_desc record)
                       (Some created) (Some updated));;
      commit;;
      refresh_calibration record_id
  end.

(** *** Reports *)

Definition execute {A} (q : Store -> list A) : db (list A) :=
  fun s => (Ok (q (working s)), s).

(** The rows a FROM clause ranges over, and what each contributes. *)
Definition for_each {A B} (rows : list A) (f : A -> list B) : list B :=
  mbind (M := list) f rows.

(** A joined table reached through a foreign key: the row under that
    primary key when there is one. *)
Definition joined {K A} `{Countable K} (t : gmap K A) (k : option K) : list A :=
  match k with
  | Some k => match t !! k with Some a => [a] | None => [] end
  | None => []
  end.

(** COUNT(col) counts the rows where [col] is not NULL; SUM is NULL over
    no rows. *)
Definition sql_count {A} (col : list (option A)) : Z :=
  Z.of_nat (length (List.filter (fun o => match o with Some _ => true | None => false end) col)).

Definition sql_sum (col : list Z) : option Z :=
  match col with
  | [] => None
  | _ => Some (foldr Z.add 0 col)
  end.

(** [col.in_(["优", "良"])]; a NULL column is in no list. *)
Definition quality_qualified (q : option string) : bool :=
  match q with
  | Some q => String.eqb q "优" || String.eqb q "良"
  | None => false
  end.

Record QualityGroup := mkQualityGroup {
  qg_device_id : Z;
  qg_device_type : string;
  qg_area_name : string;
  qg_total_data_count : Z;
  qg_qualified_count : option Z
}.

(** The SELECT of [get_device_data_quality_rate]: devices inner-joined to
    their area, outer-joined to their readings from [start_time] on, one
    group per device. *)
Definition device_quality_groups (start_time : datetime) (st : Store)
  : list QualityGroup :=
  for_each (map_to_list (devices st)).*2 (fun d =>
  for_each (joined (areas st) (dev_deployment_area_id d)) (fun a =>
    let matched :=
      List.filter (fun r => (dat_device_id r =? dev_id d)
                            && (start_time <=? dat_collect_time r))
                  (map_to_list (env_data st)).*2 in
    let outer : list (option DataRow) :=
      match matched with
      | [] => [None]
      | _ => List.map Some matched
      end in
    [ mkQualityGroup (dev_id d) (dev_type d) (area_name a)
        (sql_count (List.map (option_map dat_data_id) outer))
        (sql_sum (List.map (fun o => if quality_qualified (option_map dat_data_quality o)
                                     then 1 else 0) outer)) ])).

Record QualityRow := mkQualityRow {
  qr_device_id : Z;
  qr_device_type : string;
  qr_area_name : string;
  qr_total_data_count : Z;
  qr_qualified_count : Z;
  qr_qualified_rate : float
}.

Definition quality_rate (qualified total : Z) : float :=
  if total =? 0 then 0%float
  else py_round2 (float_of_count qualified * 100 / float_of_count total)%float.

Definition get_device_data_quality_rate (days : Z) : db (list QualityRow) :=
  end_time ← datetime_now;
  let start_time := end_time - timedelta_of_days days in
  rows ← execute (device_quality_groups start_time);
  let result :=
    foldl (fun result r =>
             let total := qg_total_data_count r in
             let qualified := default 0 (qg_qualified_count r) in
             let rate := quality_rate qualified total in
             result ++ [ mkQualityRow (qg_device_id r) (qg_device_type r)
                           (qg_area_name r) total qualified rate ])
          [] rows in
  mret (sort_by (fun y x => (qr_qualified_rate x <? qr_qualified_rate y)%float)
                result).

(** The second condition of the WHERE of
    [get_overdue_calibration_devices_data], on the joined device. *)
Definition overdue_where (now : datetime) (d : DeviceRow) : option bool :=
  sql_or (sql_is_null (dev_last_calibration_time d))
         (sql_gt ((fun last => datediff_day last now) <$> dev_last_calibration_time d)
                 (dev_calibration_cycle d)).

Record OverdueRow := mkOverdueRow {
  od_data_id : string;
  od_collect_time : datetime;
  od_index_id : string;
  od_index_name : string;
  od_monitor_value : float;
  od_device_id : Z;
  od_device_type : string;
  od_calibration_cycle : option Z;
  od_last_calibration_time : option datetime;
  od_data_quality : string
}.

Definition get_overdue_calibration_devices_data (days : Z) : db (list OverdueRow) :=
  end_time ← datetime_now;
  let start_time := end_time - timedelta_of_days days in
  now ← datetime_now;
  execute (fun st =>
    sort_by (fun y x =>
               (od_device_id y <? od_device_id x)
               || ((od_device_id y =? od_device_id x)
                   && (od_collect_time x <? od_collect_time y)))
      (for_each (map_to_list (env_data st)).*2 (fun r =>
       for_each (joined (devices st) (Some (dat_device_id r))) (fun d =>
       for_each (joined (indices st) (Some (dat_index_id r))) (fun i =>
         if (start_time <=? dat_collect_time r) && sql_true (overdue_where now d)
         then [ mkOverdueRow (dat_data_id r) (dat_collect_time r) (dat_index_id r)
                  (idx_index_name i) (dat_monitor_value r) (dev_id d) (dev_type d)
                  (dev_calibration_cycle d) (dev_last_calibration_time d)
                  (dat_data_quality r) ]
         else []))))).

Record CoreAbnormalRow := mkCoreAbnormalRow {
  ca_data_id : string;
  ca_collect_time : datetime;
  ca_monitor_value : float;
  ca_upper_threshold : float;
  ca_lower_threshold : float;
  ca_device_id : Z;
  ca_device_type : string;
  ca_run_status : string;
  ca_area_name : string;
  ca_abnormal_reason : option string
}.

Definition core_abnormal_row (r : DataRow) (i : MonitorIndexRow) (d : DeviceRow)
    (a : AreaRow) : CoreAbnormalRow :=
  mkCoreAbnormalRow (dat_data_id r) (dat_collect_time r) (dat_monitor_value r)
    (idx_upper_threshold i) (idx_lower_threshold i) (dev_id d) (dev_type d)
    (dev_status d) (area_name a) (dat_abnormal_reason r).

Definition query_core_protection_abnormal_data (index_name : string) (days : Z)
  : db (list CoreAbnormalRow) :=
  now ← datetime_now;
  let start_time := now - timedelta_of_days days in
  execute (fun st =>
    sort_by (fun y x => ca_collect_time x <? ca_collect_time y)
      (for_each (map_to_list (env_data st)).*2 (fun r =>
       for_each (joined (indices st) (Some (dat_index_id r))) (fun i =>
       for_each (joined (devices st) (Some (dat_device_id r))) (fun d =>
       for_each (joined (areas st) (Some (dat_area_id r))) (fun a =>
         if String.eqb (area_type a) "核心保护区"
            && String.eqb (idx_index_name i) index_name
            && dat_is_abnormal r
            && (start_time <=? dat_collect_time r)
         then [ core_abnormal_row r i d a ]
         else [])))))).

End EnvironmentQueries.

(** ** [api.py]: the handlers *)

Module Api.

Record User := mkUser { role_type : string }.

Definition managers : list string := ["公园管理人员"; "系统管理员"].

Definition require_roles (current_user : User) (allowed_roles : list string)
    (detail : string) : db unit :=
  if bool_decide (role_type current_user ∈ allowed_roles) then mret tt
  else raise (HTTPException 403 detail).

Definition create_monitor_index (index : MonitorIndexCreate) (current_user : User)
  : db MonitorIndexRow :=
  require_roles current_user managers "需要公园管理人员权限";;
  existing ← EnvironmentQueries.get_monitor_index (mic_index_id index);
  match existing with
  | Some _ => raise (HTTPException 400 "指标编号已存在")
  | None => EnvironmentQueries.create_monitor_index index
  end.

Definition update_monitor_index (index_id : string) (payload : MonitorIndexUpdate)
    (current_user : User) : db MonitorIndexRow :=
  require_roles current_user managers "需要公园管理人员权限";;
  updated ← EnvironmentQueries.update_monitor_index index_id
              (model_dump_exclude_unset payload);
  match updated with
  | None => raise (HTTPException 404 "监测指标不存在")
  | Some row => mret row
  end.

Definition audit_environment_data (data_id : string) (audit_status : string)
    (abnormal_reason : option string) (current_user : User) : db DataRow :=
  require_roles current_user managers "需要公园管理人员权限";;
  updated ← EnvironmentQueries.update_data_audit_status data_id audit_status
              abnormal_reason;
  match updated with
  | None => raise (HTTPException 404 "监测数据不存在")
  | Some row => mret row
  end.

Section Runtime.

Variable float_str : float -> string.

(** The identifier a handler makes up when the body has none: a prefix,
    the time of the call and eight hexadecimal digits of a random UUID. *)
Variable generated_id : string -> datetime -> string.

Definition set_data_id (data : EnvironmentDataCreate) (data_id : string)
  : EnvironmentDataCreate :=
  mkDataCreate (Some data_id) (edc_index_id data) (edc_device_id data)
               (edc_collect_time data) (edc_monitor_value data)
               (edc_area_id data) (edc_data_quality data).

Definition create_environment_data (data : EnvironmentDataCreate)
    (current_user : option User) : db DataRow :=
  match current_user with
  | Some u => require_roles u managers "需要公园管理人员权限"
  | None => mret tt
  end;;
  data_id ← match edc_data_id data with
            | Some data_id => mret data_id
            | None => now ← datetime_now; mret (generated_id "ED" now)
            end;
  let data := set_data_id data data_id in
  existing ← EnvironmentQueries.get_environment_data data_id;
  match existing with
  | Some _ => raise (HTTPException 400 "数据编号已存在")
  | None => EnvironmentQueries.create_environment_data float_str data
  end.

Definition set_record_id (record : CalibrationRecordCreate) (record_id : string)
  : CalibrationRecordCreate :=
  mkCalibrationCreate (Some record_id) (crc_device_id record)
                      (crc_calibration_time record) (crc_calibrator_id record)
                      (crc_calibration_result record) (crc_calibration_desc record).

Definition create_calibration_record (record : CalibrationRecordCreate)
    (current_user : User) : db CalibrationRow :=
  require_roles current_user managers "需要公园管理人员权限";;
  record_id ← match crc_record_id record with
              | Some record_id => mret record_id
              | None => now ← datetime_now; mret (generated_id "CR" now)
              end;
  EnvironmentQueries.create_calibration_record (set_record_id record record_id).

End Runtime.

End Api.

(** ** [queries.py]: listings, status changes and deletions *)

(** [db.delete(obj)]: the DELETE is pending until the flush. *)
Definition delete_index_row (k : string) : db unit := fun s =>
  (Ok tt, with_working (fun st => set_indices (delete k (indices st)) st) s).
Definition delete_device_row (k : Z) : db unit := fun s =>
  (Ok tt, with_working (fun st => set_devices (delete k (devices st)) st) s).
Definition delete_data_row (k : string) : db unit := fun s =>
  (Ok tt, with_working (fun st => set_env_data (delete k (env_data st)) st) s).
Definition delete_calibration_row (k : string) : db unit := fun s =>
  (Ok tt, with_working (fun st => set_calibrations (delete k (calibrations st)) st) s).

Definition add_device (r : DeviceRow) : db unit := fun s =>
  match devices (working s) !! dev_id r with
  | Some _ => (Ok tt, mark_flush_error s)
  | None =>
      (Ok tt, with_working
                (fun st => set_devices (<[dev_id r := r]> (devices st)) st) s)
  end.

Definition refresh_device (k : Z) : db DeviceRow := fun s =>
  match devices (working s) !! k with
  | Some r => (Ok r, s)
  | None => (Raise InvalidRequestError, s)
  end.

(** [MonitorDeviceCreate]; the validated body always carries a cycle (30
    when the caller gave none) and a status. *)
Record MonitorDeviceCreate := mkDeviceCreate {
  mdc_type : string;
  mdc_deployment_area_id : option Z;
  mdc_install_time : option datetime;
  mdc_calibration_cycle : Z;
  mdc_status : string;
  mdc_communication_protocol : option string;
  mdc_last_calibration_time : option datetime;
  mdc_latitude : option float;
  mdc_longitude : option float
}.

(** A nullable DATETIME under ORDER BY: SQL Server puts NULL below every
    value. *)
Definition nullable_lt (a b : option datetime) : bool :=
  match a, b with
  | None, Some _ => true
  | Some x, Some y => x <? y
  | _, None => false
  end.

Module Queries.

Import EnvironmentQueries.

Section Collation.

(** The order the database's collation puts on identifiers. *)
Variable collation_lt : string -> string -> bool.

(** [order_by(desc(created_at), index_id).offset(skip).limit(limit)];
    the handler accepts [skip >= 0] and [1 <= limit <= 1000] only. *)
Definition list_monitor_indices (skip limit : nat) : db (list MonitorIndexRow) :=
  execute (fun st =>
    take limit
      (drop skip
         (sort_by (fun y x =>
                     nullable_lt (idx_created_at x) (idx_created_at y)
                     || (negb (nullable_lt (idx_created_at y) (idx_created_at x))
                         && collation_lt (idx_index_id y) (idx_index_id x)))
                  (map_to_list (indices st)).*2))).

End Collation.

(** The identity column gives the new device its id; [identity] is the
    value the database hands out for this INSERT. *)
Definition create_monitor_device (identity : Z) (device : MonitorDeviceCreate)
  : db DeviceRow :=
  install_time ← match mdc_install_time device with
                 | Some t => mret t
                 | None => datetime_now
                 end;
  created ← datetime_now;
  updated ← datetime_now;
  add_device
    (mkDevice identity (mdc_type device) (mdc_deployment_area_id device)
              (Some install_time) (Some (mdc_calibration_cycle device))
              (mdc_last_calibration_time device) (mdc_status device)
              (mdc_communication_protocol device) (mdc_latitude device)
              (mdc_longitude device) (Some created) (Some updated));;
  commit;;
  refresh_device identity.

Definition list_monitor_devices_by_area (area : Z) : db (list DeviceRow) :=
  select_devices (fun d => match dev_deployment_area_id d with
                           | Some a => a =? area
                           | None => false
                           end).

Definition list_all_monitor_devices : db (list DeviceRow) :=
  execute (fun st => sort_by (fun y x => dev_id y <? dev_id x)
                             (map_to_list (devices st)).*2).

Definition update_device_status (device_id : Z) (status_value : string)
  : db (option DeviceRow) :=
  found ← get_device_row device_id;
  match found with
  | None => mret None
  | Some db_device =>
      now ← datetime_now;
      write_device_at device_id
        (mkDevice (dev_id db_device) (dev_type db_device)
                  (dev_deployment_area_id db_device) (dev_install_time db_device)
                  (dev_calibration_cycle db_device)
                  (dev_last_calibration_time db_device) status_value
                  (dev_communication_protocol db_device) (dev_latitude db_device)
                  (dev_longitude db_device) (dev_created_at db_device) (Some now));;
      commit;;
      Some <$> refresh_device device_id
  end.

(** The optional bounds of the two reading listings: [if start_time:] adds
    the condition only when a bound was given. *)
Definition within (start_time end_time : option datetime) (t : datetime) : bool :=
  match start_time with Some b => b <=? t | None => true end
  && match end_time with Some e => t <=? e | None => true end.

Definition get_environment_data_by_device (device_id : Z)
    (start_time end_time : option datetime) : db (list DataRow) :=
  execute (fun st =>
    sort_by (fun y x => dat_collect_time x <? dat_collect_time y)
      (List.filter (fun r => (dat_device_id r =? device_id)
                             && within start_time end_time (dat_collect_time r))
                   (map_to_list (env_data st)).*2)).

Definition get_abnormal_data_by_area (area : Z)
    (start_time end_time : option datetime) : db (list DataRow) :=
  execute (fun st =>
    sort_by (fun y x => dat_collect_time x <? dat_collect_time y)
      (List.filter (fun r => ((dat_area_id r =? area) && dat_is_abnormal r)
                             && within start_time end_time (dat_collect_time r))
                   (map_to_list (env_data st)).*2)).

Definition get_calibration_records_by_device (device_id : Z)
  : db (list CalibrationRow) :=
  execute (fun st =>
    sort_by (fun y x => cal_calibration_time x <? cal_calibration_time y)
      (List.filter (fun r => cal_device_id r =? device_id)
                   (map_to_list (calibrations st)).*2)).

Definition delete_monitor_index (index_id : string) : db bool :=
  found ← get_index_row index_id;
  match found with
  | None => mret false
  | Some _ => delete_index_row index_id;; commit;; mret true
  end.

Definition delete_monitor_device (device_id : Z) : db bool :=
  found ← get_device_row device_id;
  match found with
  | None => mret false
  | Some _ => delete_device_row device_id;; commit;; mret true
  end.

Definition delete_environment_data (data_id : string) : db bool :=
  found ← get_data_row data_id;
  match found with
  | None => mret false
  | Some _ => delete_data_row data_id;; commit;; mret true
  end.

Definition delete_calibration_record (record_id : string) : db bool :=
  found ← get_calibration_row record_id;
  match found with
  | None => mret false
  | Some _ => delete_calibration_row record_id;; commit;; mret true
  end.

End Queries.

(** ** [api.py]: the remaining handlers *)

Module Handlers.

Import Api.

Definition get_monitor_index (index_id : string) : db MonitorIndexRow :=
  index ← EnvironmentQueries.get_monitor_index index_id;
  match index with
  | None => raise (HTTPException 404 "监测指标不存在")
  | Some index => mret index
  end.

Definition create_monitor_device (identity : Z) (device : MonitorDeviceCreate)
    (current_user : User) : db DeviceRow :=
  require_roles current_user managers "需要公园管理人员权限";;
  Queries.create_monitor_device identity device.

Definition get_monitor_device (device_id : Z) : db DeviceRow :=
  device ← EnvironmentQueries.get_monitor_device device_id;
  match device with
  | None => raise (HTTPException 404 "监测设备不存在")
  | Some device => mret device
  end.

Definition list_monitor_devices (area : option Z) : db (list DeviceRow) :=
  match area with
  | Some area => Queries.list_monitor_devices_by_area area
  | None => Queries.list_all_monitor_devices
  end.

Definition update_device_status (device_id : Z) (status_value : string)
    (current_user : User) : db DeviceRow :=
  require_roles current_user managers "需要公园管理人员权限";;
  device ← Queries.update_device_status device_id status_value;
  match device with
  | None => raise (HTTPException 404 "监测设备不存在")
  | Some device => mret device
  end.

Definition get_environment_data (data_id : string) : db DataRow :=
  data ← EnvironmentQueries.get_environment_data data_id;
  match data with
  | None => raise (HTTPException 404 "监测数据不存在")
  | Some data => mret data
  end.

Definition get_abnormal_data_by_area (area : Z)
    (start_time end_time : option datetime) (current_user : User)
  : db (list DataRow) :=
  require_roles current_user managers "需要公园管理人员权限";;
  Queries.get_abnormal_data_by_area area start_time end_time.

Definition get_core_protection_abnormal_report (index_name : string) (days : Z)
    (current_user : User) : db (list EnvironmentQueries.CoreAbnormalRow) :=
  require_roles current_user managers "需要公园管理人员权限";;
  EnvironmentQueries.query_core_protection_abnormal_data index_name days.

Definition get_device_quality_rate_report (days : Z) (current_user : User)
  : db (list EnvironmentQueries.QualityRow) :=
  require_roles current_user managers "需要公园管理人员权限";;
  EnvironmentQueries.get_device_data_quality_rate days.

Definition get_overdue_calibration_data_report (days : Z) (current_user : User)
  : db (list EnvironmentQueries.OverdueRow) :=
  require_roles current_user managers "需要公园管理人员权限";;
  EnvironmentQueries.get_overdue_calibration_devices_data days.

Definition delete_monitor_index (index_id : string) (current_user : User)
  : db string :=
  require_roles current_user managers "需要公园管理人员权限";;
  success ← Queries.delete_monitor_index index_id;
  if success : bool then mret "删除成功"
  else raise (HTTPException 404 "监测指标不存在").

Definition delete_monitor_device (device_id : Z) (current_user : User)
  : db string :=
  require_roles current_user managers "需要公园管理人员权限";;
  success ← Queries.delete_monitor_device device_id;
  if success : bool then mret "删除成功"
  else raise (HTTPException 404 "监测设备不存在").

Definition delete_environment_data (data_id : string) (current_user : User)
  : db string :=
  require_roles current_user managers "需要公园管理人员权限";;
  success ← Queries.delete_environment_data data_id;
  if success : bool then mret "删除成功"
  else raise (HTTPException 404 "监测数据不存在").

Definition delete_calibration_record (record_id : string) (current_user : User)
  : db string :=
  require_roles current_user managers "需要公园管理人员权限";;
  success ← Queries.delete_calibration_record record_id;
  if success : bool then mret "删除成功"
  else raise (HTTPException 404 "校准记录不存在").

End Handlers.

(** ** Sample data

    The scenarios of the specification: indicator PM25 with bounds 0
    and 75, a core-protection area, and devices in the states the scheduler
    tells apart.  Day 100 is the day of the calls. *)

Module Sample.

Definition day (n : Z) : datetime := n * usec_per_day.

Definition wall_clock : nat -> datetime := fun n => day 100 + Z.of_nat n.

Definition pm25 : MonitorIndexRow :=
  mkIndex "PM25" "PM25" "ug/m3" 75 0 "小时" (Some (day 1)) (Some (day 1)).

Definition core_area : AreaRow := mkArea 1 "A1" "核心保护区".
Definition buffer_area : AreaRow := mkArea 2 "A2" "缓冲区".

Definition device (id : Z) (area : option Z) (cycle : option Z)
    (last : option datetime) (status : string) : DeviceRow :=
  mkDevice id "空气监测仪" area (Some (day 1)) cycle last status None None None
           (Some (day 1)) (Some (day 1)).

(** Never calibrated. *)
Definition d1 : DeviceRow := device 1 (Some 1) (Some 30) None "正常".
(** Calibrated 45 days ago on a cycle of 30. *)
Definition d2 : DeviceRow := device 2 (Some 1) (Some 30) (Some (day 55)) "正常".
(** Offline, calibrated long ago. *)
Definition d3 : DeviceRow := device 3 (Some 2) (Some 30) (Some (day 2)) "离线".
(** No cycle on record, calibrated 30 days ago. *)
Definition d4 : DeviceRow := device 4 (Some 2) None (Some (day 70)) "故障".
(** Calibrated exactly one cycle ago, and deployed in no area. *)
Definition d5 : DeviceRow := device 5 None (Some 30) (Some (day 70)) "正常".

Definition reading (id : string) (dev : Z) (area : Z) (t : datetime)
    (v : float) (quality : string) (abnormal : bool) (reason : option string)
  : DataRow :=
  mkData id "PM25" dev t v area quality abnormal reason "未审核" (Some t) (Some t).

(** Three readings of device 1, one of them above the bound; a reading of
    device 2 dated twenty days after the calls; a reading that names a
    device the registry does not have; an abnormal reading from the buffer
    area. *)
Definition r0 : DataRow :=
  reading "R0" 1 1 (day 99) 120 "优" true (Some "监测值120.0超过上限阈值75.0").
Definition r2 : DataRow := reading "R2" 1 1 (day 98) 50 "差" false None.
Definition r3 : DataRow := reading "R3" 1 1 (day 97) 60 "中" false None.
Definition r4 : DataRow :=
  reading "R4" 2 1 (day 120) 200 "良" true (Some "监测值200.0超过上限阈值75.0").
Definition r5 : DataRow :=
  reading "R5" 77 1 (day 99) 90 "良" true (Some "监测值90.0超过上限阈值75.0").
Definition r6 : DataRow :=
  reading "R6" 3 2 (day 99) 80 "中" true (Some "监测值80.0超过上限阈值75.0").

Definition calibration_c0 : CalibrationRow :=
  mkCalibration "C0" 2 (day 55) 7 "合格" None (Some (day 55)) (Some (day 55)).

Definition store : Store :=
  mkStore {[ "PM25" := pm25 ]}
          (<[1 := d1]> (<[2 := d2]> (<[3 := d3]> (<[4 := d4]> {[ 5 := d5 ]}))))
          (<[1 := core_area]> {[ 2 := buffer_area ]})
          (<["R0" := r0]> (<["R2" := r2]> (<["R3" := r3]> (<["R4" := r4]>
             (<["R5" := r5]> {[ "R6" := r6 ]})))))
          {[ "C0" := calibration_c0 ]}.

Definition session : Session := open_session store wall_clock.

Definition manager : Api.User := Api.mkUser "公园管理人员".

(** A stand-in for the runtime's rendering of floats, right on the two
    numbers of the scenario. *)
Definition float_str (x : float) : string :=
  if (x =? 120)%float then "120.0"
  else if (x =? 75)%float then "75.0"
  else "0.0".

(** A stand-in for the identifiers the handlers make up. *)
Definition generated_id (prefix : string) (now : datetime) : string :=
  prefix +:+ "_generated".

(** Requests that reuse the ids of stored rows. *)
Definition duplicate_index : MonitorIndexCreate :=
  mkIndexCreate "PM25" "PM2.5" "ug/m3" 35 0 "日".
Definition duplicate_reading : EnvironmentDataCreate :=
  mkDataCreate (Some "R0") "PM25" 1 (day 100) 10 1 "良".
Definition duplicate_calibration : CalibrationRecordCreate :=
  mkCalibrationCreate (Some "C0") 2 (day 100) 7 "合格" None.

(** A PATCH body that sets the upper threshold, sends a null unit and leaves
    the rest out. *)
Definition raise_upper : MonitorIndexUpdate :=
  mkIndexUpdate Unset (Given None) (Given (Some 100%float)) Unset Unset.

(** Device 2 is calibrated on the day of the calls. *)
Definition calibration_today : CalibrationRecordCreate :=
  mkCalibrationCreate (Some "C1") 2 (day 100) 7 "合格" None.

(** The reading of the scenario: 120 against an upper bound of 75. *)
Definition high_reading : EnvironmentDataCreate :=
  mkDataCreate (Some "R1") "PM25" 1 (day 99) 120 1 "优".

End Sample.

(** * Properties *)

Import EnvironmentQueries.

(** ** Calibration scheduling *)

Section CalibrationDue.

Lemma timedelta_days_datediff (a b : datetime) :
  datediff_day a b - 1 <= timedelta_days (b - a) <= datediff_day a b.
Proof.
  unfold timedelta_days, datediff_day.
  assert (HD : 0 < usec_per_day) by reflexivity.
  pose proof (Z.div_mod a usec_per_day) as Ha.
  pose proof (Z.div_mod b usec_per_day) as Hb.
  pose proof (Z.mod_pos_bound a usec_per_day HD) as Ra.
  pose proof (Z.mod_pos_bound b usec_per_day HD) as Rb.
  split.
  - apply Z.div_le_lower_bound; [exact HD |]. lia.
  - apply Z.lt_succ_r, Z.div_lt_upper_bound; [exact HD |]. lia.
Qed.

Lemma py_or_nonzero (c d : Z) : c <> 0 -> py_or (Some c) d = c.
Proof. intros Hc. unfold py_or. destruct (Z.eqb_spec c 0); [contradiction | reflexivity]. Qed.

(** The scheduler's loop is a filter by [needs_calibration]. *)
Lemma calibration_loop_filter (now : datetime) (l acc : list DeviceRow) :
  foldl (fun result device =>
           match dev_last_calibration_time device with
           | None => result ++ [device]
           | Some last =>
               let days_since := timedelta_days (now - last) in
               if days_since >=? py_or (dev_calibration_cycle device) 30
               then result ++ [device]
               else result
           end) acc l
  = acc ++ List.filter (needs_calibration now) l.
Proof.
  revert acc. induction l as [|d l IH]; intros acc; simpl.
  - by rewrite app_nil_r.
  - rewrite IH. unfold needs_calibration at 2.
    destruct (dev_last_calibration_time d) as [last|]; simpl.
    + destruct (_ >=? _); [by rewrite <- app_assoc | done].
    + by rewrite <- app_assoc.
Qed.

Lemma get_devices_needing_calibration_run (s : Session) :
  (get_devices_needing_calibration s).1
  = Ok (List.filter (needs_calibration (clock s (ticks s)))
          (List.filter (fun d => negb (String.eqb (dev_status d) "离线"))
             (map_to_list (devices (working s))).*2)).
Proof.
  unfold get_devices_needing_calibration, mbind, db_bind, datetime_now,
    select_devices, mret, db_ret; simpl.
  by rewrite calibration_loop_filter.
Qed.

Lemma elem_of_table_values {K A} `{Countable K} (m : gmap K A) (x : A) :
  x ∈ (map_to_list m).*2 <-> exists k, m !! k = Some x.
Proof.
  rewrite list_elem_of_fmap. split.
  - intros [[k y] [-> Hin]]. exists k. by apply elem_of_map_to_list in Hin.
  - intros [k Hk]. exists (k, x). split; [done | by apply elem_of_map_to_list].
Qed.

Lemma elem_of_filter_bool {A} (p : A -> bool) (l : list A) (x : A) :
  x ∈ List.filter p l <-> x ∈ l /\ p x = true.
Proof. rewrite !list_elem_of_In, filter_In. tauto. Qed.

(** Which devices the scheduler returns, whatever their cycle. *)
Lemma calibration_due_membership (s : Session) (d : DeviceRow) :
  exists result,
    (get_devices_needing_calibration s).1 = Ok result /\
    (d ∈ result <->
       (exists k, devices (working s) !! k = Some d) /\
       dev_status d <> "离线" /\
       needs_calibration (clock s (ticks s)) d = true).
Proof.
  eexists. split; [apply get_devices_needing_calibration_run |].
  rewrite !elem_of_filter_bool, elem_of_table_values, negb_true_iff.
  destruct (String.eqb_spec (dev_status d) "离线"); split; intros; destruct_and?;
    repeat split; congruence.
Qed.

End CalibrationDue.

(** C2.  For a device with a cycle on record (any non-zero number of days,
    so every positive one), the calibration-due query returns the device
    exactly when it is in the device table, its status is not offline, and
    it was never calibrated or at least [cycle] whole days have passed
    since its last calibration; an offline device is never returned. *)
Theorem calibration_due_exactly (s : Session) (d : DeviceRow) (cycle : Z) :
  dev_calibration_cycle d = Some cycle ->
  cycle <> 0 ->
  exists result,
    (get_devices_needing_calibration s).1 = Ok result /\
    (d ∈ result <->
       (exists k, devices (working s) !! k = Some d) /\
       dev_status d <> "离线" /\
       (dev_last_calibration_time d = None \/
        exists last, dev_last_calibration_time d = Some last /\
                     cycle <= timedelta_days (clock s (ticks s) - last))) /\
    (dev_status d = "离线" -> d ∉ result).
Proof.
  intros Hcycle Hnz.
  destruct (calibration_due_membership s d) as (result & Hrun & Hmem).
  exists result. split; [exact Hrun |]. split.
  - rewrite Hmem. unfold needs_calibration. rewrite Hcycle, py_or_nonzero by done.
    destruct (dev_last_calibration_time d) as [last|].
    + rewrite Z.geb_le. split.
      * intros (Hk & Hst & Hle). eauto 6.
      * intros (Hk & Hst & [Hnone | (last' & Heq & Hle)]); [done |].
        injection Heq as <-. done.
    + split; intros (Hk & Hst & _); eauto.
  - intros Hoff Hin. apply Hmem in Hin as (_ & Hst & _). done.
Qed.

Lemma calibration_due_exactly_witness :
  (dev_calibration_cycle Sample.d2 = Some 30 /\ 30 <> 0) /\
  exists result,
    (get_devices_needing_calibration Sample.session).1 = Ok result /\
    (Sample.d2 ∈ result <->
       (exists k, devices (working Sample.session) !! k = Some Sample.d2) /\
       dev_status Sample.d2 <> "离线" /\
       (dev_last_calibration_time Sample.d2 = None \/
        exists last, dev_last_calibration_time Sample.d2 = Some last /\
                     30 <= timedelta_days
                             (clock Sample.session (ticks Sample.session) - last))) /\
    (dev_status Sample.d2 = "离线" -> Sample.d2 ∉ result).
Proof.
  split; [split; [reflexivity | lia] |].
  apply (calibration_due_exactly Sample.session Sample.d2 30); [reflexivity | lia].
Defined.

(** C10.  A device with no cycle on record is treated as having a cycle
    of 30 days: the query returns it exactly when it is in the device
    table, not offline, and never calibrated or calibrated at least 30 whole
    days ago.  The query itself always returns a list. *)
Theorem calibration_due_null_cycle (s : Session) (d : DeviceRow) :
  dev_calibration_cycle d = None ->
  exists result,
    (get_devices_needing_calibration s).1 = Ok result /\
    (d ∈ result <->
       (exists k, devices (working s) !! k = Some d) /\
       dev_status d <> "离线" /\
       (dev_last_calibration_time d = None \/
        exists last, dev_last_calibration_time d = Some last /\
                     30 <= timedelta_days (clock s (ticks s) - last))).
Proof.
  intros Hcycle.
  destruct (calibration_due_membership s d) as (result & Hrun & Hmem).
  exists result. split; [exact Hrun |].
  rewrite Hmem. unfold needs_calibration. rewrite Hcycle. simpl.
  case_eq (dev_last_calibration_time d).
  - intros last Hlast. rewrite Z.geb_le. split.
    + intros (Hk & Hst & Hle). repeat split; try done. right. by exists last.
    + intros (Hk & Hst & [Hnone | (last' & Heq & Hle)]); [done |].
      by injection Heq as <-.
  - intros _. split; intros (Hk & Hst & _); auto.
Qed.

Lemma calibration_due_null_cycle_witness :
  dev_calibration_cycle Sample.d4 = None /\
  exists result,
    (get_devices_needing_calibration Sample.session).1 = Ok result /\
    (Sample.d4 ∈ result <->
       (exists k, devices (working Sample.session) !! k = Some Sample.d4) /\
       dev_status Sample.d4 <> "离线" /\
       (dev_last_calibration_time Sample.d4 = None \/
        exists last, dev_last_calibration_time Sample.d4 = Some last /\
                     30 <= timedelta_days
                             (clock Sample.session (ticks Sample.session) - last))).
Proof.
  split; [reflexivity |].
  apply (calibration_due_null_cycle Sample.session Sample.d4). reflexivity.
Defined.

(** On the sample data the query returns the never-calibrated device,
    the one 45 days past calibration, the one with no cycle and 30 days,
    and the one exactly one cycle old, in the order of the table scan; not
    the offline one. *)
Example calibration_due_sample :
  (get_devices_needing_calibration Sample.session).1
  = Ok [Sample.d5; Sample.d4; Sample.d2; Sample.d1].
Proof. vm_compute. reflexivity. Qed.

(** ** The two overdue predicates *)

Lemma overdue_where_true (now : datetime) (d : DeviceRow) :
  sql_true (overdue_where now d) = true <->
  dev_last_calibration_time d = None \/
  exists last cycle,
    dev_last_calibration_time d = Some last /\
    dev_calibration_cycle d = Some cycle /\
    cycle < datediff_day last now.
Proof.
  unfold overdue_where, sql_is_null.
  destruct (dev_last_calibration_time d) as [last|]; simpl; [| by intuition].
  destruct (dev_calibration_cycle d) as [cycle|]; simpl.
  - destruct (Z.gtb_spec (datediff_day last now) cycle); simpl; split.
    + intros _. right. exists last, cycle. auto.
    + done.
    + discriminate.
    + intros [Hnone | (l & c & Hl & Hc & Hlt)]; [discriminate |].
      injection Hl as <-. injection Hc as <-. lia.
  - split; [discriminate |].
    intros [Hnone | (l & c & _ & Hc & _)]; discriminate.
Qed.

(** C5.  The WHERE condition of the overdue-calibration report is strictly
    stronger than the scheduler's test.  For a device whose cycle is not
    zero (the data model has positive cycles only) the report's condition
    implies the scheduler's; a device calibrated exactly one cycle ago, at
    the same time of day, is due for the scheduler and not selected by the
    report; the sample device [d5] is one. *)
Theorem overdue_report_stricter_than_due :
  (forall (now : datetime) (d : DeviceRow),
     dev_calibration_cycle d <> Some 0 ->
     sql_true (overdue_where now d) = true ->
     needs_calibration now d = true) /\
  (forall (now last : datetime) (cycle : Z) (d : DeviceRow),
     dev_calibration_cycle d = Some cycle ->
     cycle <> 0 ->
     dev_last_calibration_time d = Some last ->
     timedelta_days (now - last) = cycle ->
     datediff_day last now = cycle ->
     needs_calibration now d = true /\ sql_true (overdue_where now d) = false) /\
  (exists (now last : datetime) (cycle : Z) (d : DeviceRow),
     dev_calibration_cycle d = Some cycle /\
     0 < cycle /\
     dev_last_calibration_time d = Some last /\
     timedelta_days (now - last) = cycle /\
     needs_calibration now d = true /\
     sql_true (overdue_where now d) = false).
Proof.
  split; [| split].
  - intros now d Hnz Hrep. apply overdue_where_true in Hrep.
    unfold needs_calibration.
    destruct Hrep as [-> | (last & cycle & -> & Hc & Hlt)]; [reflexivity |].
    rewrite Hc in Hnz |- *.
    rewrite py_or_nonzero by congruence.
    apply Z.geb_le. pose proof (timedelta_days_datediff last now). lia.
  - intros now last cycle d Hc Hnz Hlast Hdays Hdiff. split.
    + unfold needs_calibration.
      rewrite Hlast, Hc, py_or_nonzero by done. apply Z.geb_le. lia.
    + destruct (sql_true (overdue_where now d)) eqn:E; [| reflexivity].
      apply overdue_where_true in E as [E | (l & c & Hl & Hc' & Hlt)]; [congruence |].
      rewrite Hlast in Hl. rewrite Hc in Hc'.
      injection Hl as <-. injection Hc' as <-. lia.
  - exists (Sample.day 100), (Sample.day 70), 30, Sample.d5.
    vm_compute. repeat split; congruence.
Qed.

Lemma overdue_report_stricter_than_due_witness :
  (dev_calibration_cycle Sample.d2 <> Some 0 /\
   sql_true (overdue_where (Sample.day 100) Sample.d2) = true) /\
  needs_calibration (Sample.day 100) Sample.d2 = true.
Proof.
  split; [split; [discriminate | reflexivity] |].
  apply (proj1 overdue_report_stricter_than_due (Sample.day 100) Sample.d2);
    [discriminate | reflexivity].
Defined.

(** With a cycle of zero the scheduler falls back to 30 days while the
    report compares with zero, so the implication needs the cycle not to be
    zero: five days after calibration the report selects such a device and
    the scheduler does not. *)
Example zero_cycle_report_without_due :
  let d := Sample.device 9 None (Some 0) (Some (Sample.day 95)) "正常" in
  sql_true (overdue_where (Sample.day 100) d) = true /\
  needs_calibration (Sample.day 100) d = false.
Proof. split; reflexivity. Qed.

(** ** Running the session monad *)

Ltac db_unfold :=
  unfold mbind, db_bind, mret, db_ret, fmap, db_fmap, raise,
    datetime_now, get_index_row, get_device_row, get_data_row,
    get_calibration_row, execute in *.

Lemma with_working_flush (f : Store -> Store) (s : Session) :
  flush_error (with_working f s) = flush_error s.
Proof. reflexivity. Qed.

(** ** Anomaly detection at ingestion *)

Section Ingestion.

Variable float_str : float -> string.

(** What [create_environment_data] stores for a reading: its classification
    against the indicator found, the default audit status, and the two
    clock readings as timestamps. *)
Definition ingested_row (data : EnvironmentDataCreate) (data_id : string)
    (s : Session) : DataRow :=
  let c := classify_reading float_str (indices (working s) !! edc_index_id data)
             (edc_monitor_value data) in
  mkData data_id (edc_index_id data) (edc_device_id data) (edc_collect_time data)
         (edc_monitor_value data) (edc_area_id data) (edc_data_quality data)
         c.1 c.2 audit_status_default
         (Some (clock s (ticks s))) (Some (clock s (S (ticks s)))).

Lemma create_environment_data_run (data : EnvironmentDataCreate)
    (data_id : string) (s : Session) :
  edc_data_id data = Some data_id ->
  env_data (working s) !! data_id = None ->
  flush_error s = false ->
  let row := ingested_row data data_id s in
  let st := set_env_data (<[data_id := row]> (env_data (working s))) (working s) in
  create_environment_data float_str data s
  = (Ok row, mkSession st st false (st :: commit_log s) (clock s) (S (S (ticks s)))).
Proof.
  intros Hid Hfresh Hflush. unfold create_environment_data, ingested_row.
  db_unfold. simpl.
  destruct (classify_reading _ _ _) as [flag reason]. simpl.
  rewrite Hid. unfold add_data, commit, refresh_data. simpl.
  rewrite Hfresh. simpl. rewrite Hflush. simpl.
  rewrite lookup_insert_eq. reflexivity.
Qed.

End Ingestion.

(** C1.  A reading created under a fresh id is persisted.  When its
    indicator exists, the stored flag is set exactly when the value is
    strictly above the upper threshold or strictly below the lower one, and
    the stored reason is the text with the value and the violated bound;
    when the indicator does not exist, the reading is stored as normal with
    no reason. *)
Theorem reading_classified_at_creation (float_str : float -> string)
    (data : EnvironmentDataCreate) (data_id : string) (s : Session) :
  edc_data_id data = Some data_id ->
  env_data (working s) !! data_id = None ->
  flush_error s = false ->
  exists row s',
    create_environment_data float_str data s = (Ok row, s') /\
    env_data (committed s') !! data_id = Some row /\
    dat_monitor_value row = edc_monitor_value data /\
    (forall i, indices (working s) !! edc_index_id data = Some i ->
       let v := edc_monitor_value data in
       let upper := idx_upper_threshold i in
       let lower := idx_lower_threshold i in
       (dat_is_abnormal row = true <->
          (upper <? v)%float = true \/ (v <? lower)%float = true) /\
       ((upper <? v)%float = true ->
          dat_abnormal_reason row
          = Some ("监测值" +:+ float_str v +:+ "超过上限阈值" +:+ float_str upper)) /\
       ((upper <? v)%float = false -> (v <? lower)%float = true ->
          dat_abnormal_reason row
          = Some ("监测值" +:+ float_str v +:+ "低于下限阈值" +:+ float_str lower)) /\
       (dat_is_abnormal row = false -> dat_abnormal_reason row = None)) /\
    (indices (working s) !! edc_index_id data = None ->
       dat_is_abnormal row = false /\ dat_abnormal_reason row = None).
Proof.
  intros Hid Hfresh Hflush.
  eexists _, _. split; [by apply create_environment_data_run |].
  simpl. split; [apply lookup_insert_eq |]. split; [reflexivity |].
  unfold classify_reading. split.
  - intros i ->. simpl.
    destruct (idx_upper_threshold i <? edc_monitor_value data)%float eqn:Hup;
      [| destruct (edc_monitor_value data <? idx_lower_threshold i)%float eqn:Hlow];
      simpl; intuition congruence.
  - intros ->. split; reflexivity.
Qed.

Lemma reading_classified_at_creation_witness :
  (edc_data_id Sample.high_reading = Some "R1" /\
   env_data (working Sample.session) !! "R1" = None /\
   flush_error Sample.session = false) /\
  exists row s',
    create_environment_data Sample.float_str Sample.high_reading Sample.session
    = (Ok row, s') /\
    env_data (committed s') !! "R1" = Some row /\
    dat_is_abnormal row = true /\
    dat_abnormal_reason row = Some "监测值120.0超过上限阈值75.0".
Proof.
  split; [repeat split |].
  destruct (reading_classified_at_creation Sample.float_str Sample.high_reading
              "R1" Sample.session eq_refl eq_refl eq_refl)
    as (row & s' & Hrun & Hstored & _ & Hfound & _).
  exists row, s'. split; [exact Hrun |]. split; [exact Hstored |].
  destruct (Hfound Sample.pm25 eq_refl) as (Hflag & Hupper & _).
  split; [apply Hflag; left; reflexivity | apply Hupper; reflexivity].
Defined.

(** ** Authorisation *)

Lemma require_roles_allowed (u : Api.User) (allowed : list string)
    (detail : string) (s : Session) :
  Api.role_type u ∈ allowed ->
  Api.require_roles u allowed detail s = (Ok tt, s).
Proof. intros Hin. unfold Api.require_roles. by rewrite bool_decide_eq_true_2. Qed.

Lemma require_roles_denied (u : Api.User) (allowed : list string)
    (detail : string) (s : Session) :
  Api.role_type u ∉ allowed ->
  Api.require_roles u allowed detail s = (Raise (HTTPException 403 detail), s).
Proof. intros Hin. unfold Api.require_roles. by rewrite bool_decide_eq_false_2. Qed.

(** ** The audit workflow *)

(** The reading [r] after an audit at time [now]. *)
Definition audited (r : DataRow) (audit_status : string)
    (abnormal_reason : option string) (now : datetime) : DataRow :=
  mkData (dat_data_id r) (dat_index_id r) (dat_device_id r) (dat_collect_time r)
         (dat_monitor_value r) (dat_area_id r) (dat_data_quality r)
         (dat_is_abnormal r)
         (match abnormal_reason with
          | Some reason => Some reason
          | None => dat_abnormal_reason r
          end)
         audit_status (dat_created_at r) (Some now).

Lemma update_data_audit_status_found (data_id audit_status : string)
    (abnormal_reason : option string) (s : Session) (r : DataRow) :
  flush_error s = false ->
  env_data (working s) !! data_id = Some r ->
  let r' := audited r audit_status abnormal_reason (clock s (ticks s)) in
  let st := set_env_data (<[data_id := r']> (env_data (working s))) (working s) in
  update_data_audit_status data_id audit_status abnormal_reason s
  = (Ok (Some r'),
     mkSession st st false (st :: commit_log s) (clock s) (S (ticks s))).
Proof.
  intros Hflush Hr. unfold update_data_audit_status. db_unfold. simpl.
  rewrite Hr. unfold write_data_at, commit, refresh_data. simpl.
  rewrite Hflush. simpl. rewrite lookup_insert_eq. reflexivity.
Qed.

Lemma update_data_audit_status_missing (data_id audit_status : string)
    (abnormal_reason : option string) (s : Session) :
  env_data (working s) !! data_id = None ->
  update_data_audit_status data_id audit_status abnormal_reason s = (Ok None, s).
Proof.
  intros Hr. unfold update_data_audit_status. db_unfold. simpl. by rewrite Hr.
Qed.

(** C3.  Auditing an existing reading stores the new status, whatever it
    is and whatever the old one was; it stores the reason when one is
    given and keeps the old reason otherwise; the abnormal flag and every
    other column but the update timestamp stay as they were, and so do all
    other rows and tables.  Auditing a reading that does not exist changes
    nothing, and the handler answers 404. *)
Theorem audit_changes_status_and_reason_only (data_id audit_status : string)
    (abnormal_reason : option string) (u : Api.User) (s : Session) :
  flush_error s = false ->
  Api.role_type u ∈ Api.managers ->
  (forall r, env_data (working s) !! data_id = Some r ->
     exists r' s',
       Api.audit_environment_data data_id audit_status abnormal_reason u s
       = (Ok r', s') /\
       committed s'
       = set_env_data (<[data_id := r']> (env_data (working s))) (working s) /\
       dat_audit_status r' = audit_status /\
       dat_abnormal_reason r'
       = match abnormal_reason with
         | Some reason => Some reason
         | None => dat_abnormal_reason r
         end /\
       dat_is_abnormal r' = dat_is_abnormal r /\
       dat_data_id r' = dat_data_id r /\
       dat_index_id r' = dat_index_id r /\
       dat_device_id r' = dat_device_id r /\
       dat_collect_time r' = dat_collect_time r /\
       dat_monitor_value r' = dat_monitor_value r /\
       dat_area_id r' = dat_area_id r /\
       dat_data_quality r' = dat_data_quality r /\
       dat_created_at r' = dat_created_at r /\
       dat_updated_at r' = Some (clock s (ticks s))) /\
  (env_data (working s) !! data_id = None ->
     update_data_audit_status data_id audit_status abnormal_reason s
     = (Ok None, s) /\
     Api.audit_environment_data data_id audit_status abnormal_reason u s
     = (Raise (HTTPException 404 "监测数据不存在"), s)).
Proof.
  intros Hflush Hrole. split.
  - intros r Hr.
    pose proof (update_data_audit_status_found data_id audit_status
                  abnormal_reason s r Hflush Hr) as Hrun.
    simpl in Hrun.
    eexists _, _. split.
    + unfold Api.audit_environment_data. db_unfold.
      rewrite require_roles_allowed by done. rewrite Hrun. reflexivity.
    + simpl. repeat split; reflexivity.
  - intros Hr.
    pose proof (update_data_audit_status_missing data_id audit_status
                  abnormal_reason s Hr) as Hrun.
    split; [exact Hrun |].
    unfold Api.audit_environment_data. db_unfold.
    rewrite require_roles_allowed by done. rewrite Hrun. reflexivity.
Qed.

Lemma audit_changes_status_and_reason_only_witness :
  (flush_error Sample.session = false /\
   Api.role_type Sample.manager ∈ Api.managers) /\
  (exists r' s',
     Api.audit_environment_data "R0" "已审核" None Sample.manager Sample.session
     = (Ok r', s') /\
     dat_audit_status r' = "已审核" /\
     dat_abnormal_reason r' = Some "监测值120.0超过上限阈值75.0" /\
     dat_is_abnormal r' = true) /\
  Api.audit_environment_data "R9" "已审核" None Sample.manager Sample.session
  = (Raise (HTTPException 404 "监测数据不存在"), Sample.session).
Proof.
  assert (Hrole : Api.role_type Sample.manager ∈ Api.managers)
    by (apply list_elem_of_here).
  split; [split; [reflexivity | exact Hrole] |].
  destruct (audit_changes_status_and_reason_only "R0" "已审核" None
              Sample.manager Sample.session eq_refl Hrole) as [Hfound _].
  destruct (audit_changes_status_and_reason_only "R9" "已审核" None
              Sample.manager Sample.session eq_refl Hrole) as [_ Hmissing].
  split.
  - destruct (Hfound Sample.r0 eq_refl)
      as (r' & s' & Hrun & _ & Hst & Hreason & Hflag & _).
    exists r', s'. repeat split; assumption.
  - apply Hmissing. reflexivity.
Defined.

(** ** The calibration ledger *)

Definition calibrated (d : DeviceRow) (calibration_time now : datetime) : DeviceRow :=
  mkDevice (dev_id d) (dev_type d) (dev_deployment_area_id d) (dev_install_time d)
           (dev_calibration_cycle d) (Some calibration_time) (dev_status d)
           (dev_communication_protocol d) (dev_latitude d) (dev_longitude d)
           (dev_created_at d) (Some now).

Definition ledger_row (record : CalibrationRecordCreate) (record_id : string)
    (s : Session) : CalibrationRow :=
  mkCalibration record_id (crc_device_id record) (crc_calibration_time record)
                (crc_calibrator_id record) (crc_calibration_result record)
                (crc_calibration_desc record)
                (Some (clock s (ticks s))) (Some (clock s (S (ticks s)))).

Lemma create_calibration_record_run (record : CalibrationRecordCreate)
    (record_id : string) (s : Session) :
  crc_record_id record = Some record_id ->
  calibrations (working s) !! record_id = None ->
  flush_error s = false ->
  let row := ledger_row record record_id s in
  let st1 :=
    match devices (working s) !! crc_device_id record with
    | Some d =>
        set_devices
          (<[crc_device_id record :=
               calibrated d (crc_calibration_time record)
                          (clock s (S (S (ticks s))))]> (devices (working s)))
          (working s)
    | None => working s
    end in
  let st := set_calibrations (<[record_id := row]> (calibrations (working s))) st1 in
  let n := match devices (working s) !! crc_device_id record with
           | Some _ => 3%nat
           | None => 2%nat
           end in
  create_calibration_record record s
  = (Ok row, mkSession st st false (st :: commit_log s) (clock s) (n + ticks s)).
Proof.
  intros Hid Hfresh Hflush. unfold create_calibration_record, ledger_row.
  db_unfold. simpl. rewrite Hid.
  destruct (devices (working s) !! crc_device_id record) as [d|] eqn:Hd; simpl;
    unfold add_calibration, commit, refresh_calibration; simpl;
    rewrite Hfresh; simpl; rewrite Hflush; simpl;
    rewrite lookup_insert_eq; reflexivity.
Qed.

(** C4.  Recording a calibration under a fresh record id persists the
    record.  The call makes one snapshot visible, and that snapshot holds
    the record together with the device change: when the device exists,
    its last calibration time is the record's and its update timestamp is
    the clock reading taken for it, its other columns and all other
    devices being unchanged; when the device does not exist, the record is
    persisted all the same and the device table is untouched. *)
Theorem calibration_recorded_with_device (record : CalibrationRecordCreate)
    (record_id : string) (s : Session) :
  crc_record_id record = Some record_id ->
  calibrations (working s) !! record_id = None ->
  flush_error s = false ->
  exists row s',
    create_calibration_record record s = (Ok row, s') /\
    calibrations (committed s') !! record_id = Some row /\
    cal_device_id row = crc_device_id record /\
    cal_calibration_time row = crc_calibration_time record /\
    commit_log s' = committed s' :: commit_log s /\
    (forall d, devices (working s) !! crc_device_id record = Some d ->
       devices (committed s')
       = <[crc_device_id record :=
             calibrated d (crc_calibration_time record)
                        (clock s (S (S (ticks s))))]> (devices (working s)) /\
       exists d', devices (committed s') !! crc_device_id record = Some d' /\
                  dev_last_calibration_time d' = Some (crc_calibration_time record) /\
                  dev_updated_at d' = Some (clock s (S (S (ticks s)))) /\
                  dev_status d' = dev_status d /\
                  dev_calibration_cycle d' = dev_calibration_cycle d) /\
    (devices (working s) !! crc_device_id record = None ->
       devices (committed s') = devices (working s)).
Proof.
  intros Hid Hfresh Hflush.
  pose proof (create_calibration_record_run record record_id s Hid Hfresh Hflush)
    as Hrun. simpl in Hrun.
  eexists _, _. split; [exact Hrun |]. simpl.
  split; [apply lookup_insert_eq |]. do 3 (split; [reflexivity |]).
  split.
  - intros d Hd. rewrite Hd. simpl. split; [reflexivity |].
    eexists. split; [apply lookup_insert_eq |]. repeat split.
  - intros Hd. rewrite Hd. reflexivity.
Qed.

Lemma calibration_recorded_with_device_witness :
  (crc_record_id Sample.calibration_today = Some "C1" /\
   calibrations (working Sample.session) !! "C1" = None /\
   flush_error Sample.session = false) /\
  exists row s',
    create_calibration_record Sample.calibration_today Sample.session
    = (Ok row, s') /\
    calibrations (committed s') !! "C1" = Some row /\
    commit_log s' = [committed s'] /\
    exists d', devices (committed s') !! 2 = Some d' /\
               dev_last_calibration_time d' = Some (Sample.day 100).
Proof.
  split; [repeat split |].
  destruct (calibration_recorded_with_device Sample.calibration_today "C1"
              Sample.session eq_refl eq_refl eq_refl)
    as (row & s' & Hrun & Hrow & _ & _ & Hlog & Hdev & _).
  exists row, s'. repeat split; try assumption.
  destruct (Hdev Sample.d2 eq_refl) as (_ & d' & Hd' & Hlast & _).
  exists d'. split; assumption.
Defined.

(** The second scenario: device 2, 45 days past its calibration, is due;
    once a calibration at the time of the call is recorded it no longer
    is. *)
Example calibration_clears_due :
  let s' := (create_calibration_record Sample.calibration_today Sample.session).2 in
  (get_devices_needing_calibration Sample.session).1
  = Ok [Sample.d5; Sample.d4; Sample.d2; Sample.d1] /\
  dev_id <$> default [] (match (get_devices_needing_calibration s').1 with
                         | Ok l => Some l
                         | Raise _ => None
                         end)
  = [5; 4; 1].
Proof. vm_compute. split; reflexivity. Qed.

(** ** Creating under an id that is taken *)

Lemma create_monitor_index_conflict (index : MonitorIndexCreate) (u : Api.User)
    (s : Session) (existing : MonitorIndexRow) :
  Api.role_type u ∈ Api.managers ->
  indices (working s) !! mic_index_id index = Some existing ->
  Api.create_monitor_index index u s
  = (Raise (HTTPException 400 "指标编号已存在"), s).
Proof.
  intros Hrole Hex. unfold Api.create_monitor_index, get_monitor_index.
  db_unfold. rewrite require_roles_allowed by done. by rewrite Hex.
Qed.

Lemma create_environment_data_conflict (float_str : float -> string)
    (generated_id : string -> datetime -> string)
    (data : EnvironmentDataCreate) (data_id : string) (s : Session)
    (existing : DataRow) :
  edc_data_id data = Some data_id ->
  env_data (working s) !! data_id = Some existing ->
  Api.create_environment_data float_str generated_id data None s
  = (Raise (HTTPException 400 "数据编号已存在"), s).
Proof.
  intros Hid Hex. unfold Api.create_environment_data, get_environment_data.
  db_unfold. rewrite Hid. simpl. by rewrite Hex.
Qed.

(** The calibration handler does not look the id up: the INSERT fails at the
    flush, the transaction is rolled back, and what reaches the caller is
    the database error, not an HTTP 400. *)
Lemma create_calibration_record_duplicate
    (generated_id : string -> datetime -> string)
    (record : CalibrationRecordCreate) (record_id : string) (u : Api.User)
    (s : Session) (existing : CalibrationRow) :
  Api.role_type u ∈ Api.managers ->
  crc_record_id record = Some record_id ->
  calibrations (working s) !! record_id = Some existing ->
  exists s',
    Api.create_calibration_record generated_id record u s
    = (Raise IntegrityError, s') /\
    committed s' = committed s /\
    working s' = committed s /\
    commit_log s' = commit_log s.
Proof.
  intros Hrole Hid Hex. unfold Api.create_calibration_record.
  db_unfold. rewrite require_roles_allowed by done. rewrite Hid. simpl.
  unfold create_calibration_record. db_unfold. simpl.
  destruct (devices (working s) !! crc_device_id record) as [d|]; simpl;
    unfold add_calibration, commit; simpl; rewrite Hex; simpl;
    eexists; repeat split.
Qed.

(** C7.  On the sample store, whose ledger holds record C0, indicator PM25
    and reading R0: creating an indicator or a reading under a taken id
    is refused with HTTP 400 and leaves the session as it was; creating
    a calibration record under the taken id C0 raises the database's
    integrity error instead of the 400 of its siblings.  Nothing is
    overwritten in any of the three. *)
Theorem duplicate_calibration_id_is_no_conflict :
  Api.create_monitor_index Sample.duplicate_index Sample.manager Sample.session
  = (Raise (HTTPException 400 "指标编号已存在"), Sample.session) /\
  Api.create_environment_data Sample.float_str Sample.generated_id
    Sample.duplicate_reading None Sample.session
  = (Raise (HTTPException 400 "数据编号已存在"), Sample.session) /\
  (Api.create_calibration_record Sample.generated_id
     Sample.duplicate_calibration Sample.manager Sample.session).1
  = Raise IntegrityError /\
  committed (Api.create_calibration_record Sample.generated_id
               Sample.duplicate_calibration Sample.manager Sample.session).2
  = Sample.store.
Proof.
  assert (Hrole : Api.role_type Sample.manager ∈ Api.managers)
    by (apply list_elem_of_here).
  split; [| split].
  - by eapply create_monitor_index_conflict.
  - by eapply create_environment_data_conflict.
  - destruct (create_calibration_record_duplicate Sample.generated_id
                Sample.duplicate_calibration "C0" Sample.manager Sample.session
                Sample.calibration_c0 Hrole eq_refl eq_refl)
      as (s' & -> & Hc & _).
    split; [reflexivity | exact Hc].
Qed.

(** ** Partial update of an indicator *)

(** The value a column ends with: the one the body gave, if it gave one
    that is not null. *)
Definition supplied {A} (f : field A) (old : A) : A :=
  match f with
  | Given (Some v) => v
  | _ => old
  end.

Lemma apply_model_dump (r : MonitorIndexRow) (p : MonitorIndexUpdate) :
  apply_update_data r (model_dump_exclude_unset p)
  = mkIndex (idx_index_id r)
            (supplied (miu_index_name p) (idx_index_name r))
            (supplied (miu_unit p) (idx_unit r))
            (supplied (miu_upper_threshold p) (idx_upper_threshold r))
            (supplied (miu_lower_threshold p) (idx_lower_threshold r))
            (supplied (miu_monitor_frequency p) (idx_monitor_frequency r))
            (idx_created_at r) (idx_updated_at r).
Proof.
  destruct r, p as [[|[?|]] [|[?|]] [|[?|]] [|[?|]] [|[?|]]]; reflexivity.
Qed.

Lemma update_monitor_index_found (index_id : string) (p : MonitorIndexUpdate)
    (s : Session) (r : MonitorIndexRow) :
  flush_error s = false ->
  indices (working s) !! index_id = Some r ->
  idx_index_id r = index_id ->
  let r' := mkIndex (idx_index_id r)
              (supplied (miu_index_name p) (idx_index_name r))
              (supplied (miu_unit p) (idx_unit r))
              (supplied (miu_upper_threshold p) (idx_upper_threshold r))
              (supplied (miu_lower_threshold p) (idx_lower_threshold r))
              (supplied (miu_monitor_frequency p) (idx_monitor_frequency r))
              (idx_created_at r) (Some (clock s (ticks s))) in
  let st := set_indices (<[index_id := r']> (indices (working s))) (working s) in
  update_monitor_index index_id (model_dump_exclude_unset p) s
  = (Ok (Some r'), mkSession st st false (st :: commit_log s) (clock s) (S (ticks s))).
Proof.
  intros Hflush Hr Hkey. unfold update_monitor_index. db_unfold. simpl.
  rewrite Hr, apply_model_dump. simpl.
  unfold write_index_at, commit, refresh_index. simpl.
  rewrite Hkey, String.eqb_refl. simpl. rewrite Hflush. simpl.
  rewrite lookup_insert_eq. reflexivity.
Qed.

(** C9.  A partial update of an indicator stores, in each of the five
    updatable columns, the value the body supplied when it supplied one
    that is not null, and the old value otherwise; the id and the creation
    timestamp stay, the update timestamp becomes the clock reading, and no
    other row or table changes.  A reading that was created has the audit
    status Unaudited, whether it was flagged abnormal or not. *)
Theorem partial_update_and_default_audit_status :
  (forall (index_id : string) (payload : MonitorIndexUpdate) (u : Api.User)
          (s : Session) (r : MonitorIndexRow),
     flush_error s = false ->
     Api.role_type u ∈ Api.managers ->
     indices (working s) !! index_id = Some r ->
     idx_index_id r = index_id ->
     exists r' s',
       Api.update_monitor_index index_id payload u s = (Ok r', s') /\
       committed s'
       = set_indices (<[index_id := r']> (indices (working s))) (working s) /\
       idx_index_id r' = idx_index_id r /\
       idx_created_at r' = idx_created_at r /\
       idx_updated_at r' = Some (clock s (ticks s)) /\
       idx_index_name r' = supplied (miu_index_name payload) (idx_index_name r) /\
       idx_unit r' = supplied (miu_unit payload) (idx_unit r) /\
       idx_upper_threshold r'
       = supplied (miu_upper_threshold payload) (idx_upper_threshold r) /\
       idx_lower_threshold r'
       = supplied (miu_lower_threshold payload) (idx_lower_threshold r) /\
       idx_monitor_frequency r'
       = supplied (miu_monitor_frequency payload) (idx_monitor_frequency r)) /\
  (forall (float_str : float -> string) (data : EnvironmentDataCreate)
          (data_id : string) (s : Session),
     edc_data_id data = Some data_id ->
     env_data (working s) !! data_id = None ->
     flush_error s = false ->
     exists row s',
       create_environment_data float_str data s = (Ok row, s') /\
       env_data (committed s') !! data_id = Some row /\
       dat_audit_status row = "未审核").
Proof.
  split.
  - intros index_id payload u s r Hflush Hrole Hr Hkey.
    pose proof (update_monitor_index_found index_id payload s r Hflush Hr Hkey)
      as Hrun. simpl in Hrun.
    eexists _, _. split.
    + unfold Api.update_monitor_index. db_unfold.
      rewrite require_roles_allowed by done. rewrite Hrun. reflexivity.
    + simpl. repeat split; reflexivity.
  - intros float_str data data_id s Hid Hfresh Hflush.
    eexists _, _. split; [by apply create_environment_data_run |].
    simpl. split; [apply lookup_insert_eq | reflexivity].
Qed.

Lemma partial_update_and_default_audit_status_witness :
  (flush_error Sample.session = false /\
   Api.role_type Sample.manager ∈ Api.managers /\
   indices (working Sample.session) !! "PM25" = Some Sample.pm25 /\
   idx_index_id Sample.pm25 = "PM25") /\
  (exists r' s',
     Api.update_monitor_index "PM25" Sample.raise_upper Sample.manager
       Sample.session = (Ok r', s') /\
     idx_upper_threshold r' = 100%float /\
     idx_unit r' = "ug/m3" /\
     idx_lower_threshold r' = 0%float /\
     idx_index_id r' = "PM25") /\
  (exists row s',
     create_environment_data Sample.float_str Sample.high_reading Sample.session
     = (Ok row, s') /\
     env_data (committed s') !! "R1" = Some row /\
     dat_audit_status row = "未审核").
Proof.
  assert (Hrole : Api.role_type Sample.manager ∈ Api.managers)
    by (apply list_elem_of_here).
  split; [repeat split; exact Hrole |].
  destruct partial_update_and_default_audit_status as [Hupdate Hdefault].
  split.
  - destruct (Hupdate "PM25" Sample.raise_upper Sample.manager Sample.session
                Sample.pm25 eq_refl Hrole eq_refl eq_refl)
      as (r' & s' & Hrun & _ & Hid & _ & _ & _ & Hunit & Hupper & Hlower & _).
    exists r', s'. repeat split; assumption.
  - apply (Hdefault Sample.float_str Sample.high_reading "R1" Sample.session);
      reflexivity.
Defined.

(** ** Stable sorting: the result is a rearrangement, and it is ordered *)

Section Sorting.

Context {A : Type} (before : A -> A -> bool).

Lemma insert_by_perm (x : A) (l : list A) : insert_by before x l ≡ₚ x :: l.
Proof.
  induction l as [|y l IH]; simpl; [done |].
  destruct (before y x); [| done].
  rewrite IH. apply Permutation_swap.
Qed.

Lemma sort_by_perm (l : list A) : sort_by before l ≡ₚ l.
Proof.
  induction l as [|x l IH]; simpl; [done |].
  unfold sort_by in *. simpl. by rewrite insert_by_perm, IH.
Qed.

Lemma elem_of_sort_by (x : A) (l : list A) : x ∈ sort_by before l <-> x ∈ l.
Proof. by rewrite sort_by_perm. Qed.

(** [a] may stand right in front of [b]: [b] need not come before [a]. *)
Definition in_order (a b : A) : Prop := before b a = false.

Hypothesis before_asym : forall a b, before a b = true -> before b a = false.

Lemma insert_by_sorted (x : A) (l : list A) :
  Sorted in_order l -> Sorted in_order (insert_by before x l).
Proof.
  induction 1 as [|y l Hsorted IH Hhd]; simpl.
  - repeat constructor.
  - destruct (before y x) eqn:Hyx.
    + constructor; [exact IH |].
      destruct Hhd as [|z l Hyz]; simpl.
      * constructor. by apply before_asym.
      * destruct (before z x); constructor; [exact Hyz | by apply before_asym].
    + constructor; [by constructor |]. constructor. exact Hyx.
Qed.

Lemma sort_by_sorted (l : list A) : Sorted in_order (sort_by before l).
Proof.
  induction l as [|x l IH]; [constructor |].
  apply insert_by_sorted. exact IH.
Qed.

End Sorting.

(** Python's [<] on floats is IEEE 754's: it never holds both ways. *)
Lemma SFcompare_Lt_swap (x y : spec_float) :
  SFcompare x y = Some Lt -> SFcompare y x = Some Gt.
Proof.
  destruct x as [sx|sx| |sx mx ex], y as [sy|sy| |sy my ey]; simpl;
    try discriminate;
    try (repeat match goal with b : bool |- _ => destruct b end;
         (discriminate || reflexivity)).
  rewrite (Z.compare_antisym ex ey), !Pos.compare_cont_spec,
    (Pos.compare_antisym mx my).
  destruct sx, sy, (ex ?= ey)%Z, (mx ?= my)%positive; simpl;
    (discriminate || reflexivity).
Qed.

Lemma float_ltb_asym (x y : float) :
  (x <? y)%float = true -> (y <? x)%float = false.
Proof.
  rewrite !ltb_spec. unfold SFltb.
  destruct (SFcompare (Prim2SF x) (Prim2SF y)) as [[| |]|] eqn:Hxy;
    try discriminate.
  intros _. by rewrite (SFcompare_Lt_swap _ _ Hxy).
Qed.

(** [round(x, 2)] on values whose third decimal is a five or recurs, as
    CPython returns them: 2.675 gives 2.67, 1.005 gives 1.0, 0.005 gives
    0.01, 12.125 gives 12.12 (an exact tie, to even), 100/3 gives 33.33
    and 200/3 gives 66.67. *)
Example py_round2_samples :
  (py_round2 (float_of_count 2675 / 1000) = float_of_count 267 / 100 /\
   py_round2 (float_of_count 1005 / 1000) = 1 /\
   py_round2 (float_of_count 5 / 1000) = float_of_count 1 / 100 /\
   py_round2 (float_of_count 12125 / 1000) = float_of_count 1212 / 100 /\
   py_round2 (100 / 3) = float_of_count 3333 / 100 /\
   py_round2 (200 / 3) = float_of_count 6667 / 100)%float.
Proof. repeat split; vm_compute; reflexivity. Qed.

(** ** Reports *)

Lemma elem_of_for_each {A B} (rows : list A) (f : A -> list B) (x : B) :
  x ∈ for_each rows f <-> exists r, r ∈ rows /\ x ∈ f r.
Proof.
  unfold for_each. rewrite list_elem_of_bind.
  split; intros (r & H1 & H2); exists r; auto.
Qed.

Lemma elem_of_joined {K A} `{Countable K} (t : gmap K A) (k : option K) (a : A) :
  a ∈ joined t k <-> exists key, k = Some key /\ t !! key = Some a.
Proof.
  unfold joined. destruct k as [key|].
  - destruct (t !! key) as [b|] eqn:Hb.
    + rewrite list_elem_of_singleton. split.
      * intros ->. by exists key.
      * intros (key' & [= <-] & Hkey). congruence.
    + split; [by intros ?%elem_of_nil |].
      intros (key' & [= <-] & Hkey). congruence.
  - split; [by intros ?%elem_of_nil |]. by intros (key' & [=] & _).
Qed.

Lemma query_core_protection_abnormal_data_run (index_name : string) (days : Z)
    (s : Session) :
  let start_time := clock s (ticks s) - timedelta_of_days days in
  (query_core_protection_abnormal_data index_name days s).1
  = Ok (sort_by (fun y x => ca_collect_time x <? ca_collect_time y)
          (for_each (map_to_list (env_data (working s))).*2 (fun r =>
           for_each (joined (indices (working s)) (Some (dat_index_id r))) (fun i =>
           for_each (joined (devices (working s)) (Some (dat_device_id r))) (fun d =>
           for_each (joined (areas (working s)) (Some (dat_area_id r))) (fun a =>
             if String.eqb (area_type a) "核心保护区"
                && String.eqb (idx_index_name i) index_name
                && dat_is_abnormal r
                && (start_time <=? dat_collect_time r)
             then [ core_abnormal_row r i d a ]
             else [])))))).
Proof. reflexivity. Qed.

(** C8, as the code has it.  The protected-area report returns exactly the
    rows built from a reading that is flagged abnormal, was collected at or
    after the call time minus the day count (there is no upper bound),
    whose indicator exists and has the given name, whose device exists, and
    whose area exists and is of the core-protection category.  The rows are
    in descending order of collection time.  When no indicator has the given
    name the outcome is the empty list, not an error. *)
Theorem core_abnormal_report_rows (index_name : string) (days : Z) (s : Session) :
  exists result,
    (query_core_protection_abnormal_data index_name days s).1 = Ok result /\
    (forall row,
       row ∈ result <->
       exists r i d a,
         (exists k, env_data (working s) !! k = Some r) /\
         indices (working s) !! dat_index_id r = Some i /\
         devices (working s) !! dat_device_id r = Some d /\
         areas (working s) !! dat_area_id r = Some a /\
         dat_is_abnormal r = true /\
         clock s (ticks s) - timedelta_of_days days <= dat_collect_time r /\
         idx_index_name i = index_name /\
         area_type a = "核心保护区" /\
         row = core_abnormal_row r i d a) /\
    StronglySorted (fun a b => ca_collect_time b <= ca_collect_time a) result /\
    ((forall k i, indices (working s) !! k = Some i -> idx_index_name i <> index_name) ->
     result = []).
Proof.
  eexists. split; [apply query_core_protection_abnormal_data_run |].
  assert (Hmem : forall row,
    row ∈ sort_by (fun y x => ca_collect_time x <? ca_collect_time y)
          (for_each (map_to_list (env_data (working s))).*2 (fun r =>
           for_each (joined (indices (working s)) (Some (dat_index_id r))) (fun i =>
           for_each (joined (devices (working s)) (Some (dat_device_id r))) (fun d =>
           for_each (joined (areas (working s)) (Some (dat_area_id r))) (fun a =>
             if String.eqb (area_type a) "核心保护区"
                && String.eqb (idx_index_name i) index_name
                && dat_is_abnormal r
                && (clock s (ticks s) - timedelta_of_days days <=? dat_collect_time r)
             then [ core_abnormal_row r i d a ]
             else [])))))
    <->
    exists r i d a,
      (exists k, env_data (working s) !! k = Some r) /\
      indices (working s) !! dat_index_id r = Some i /\
      devices (working s) !! dat_device_id r = Some d /\
      areas (working s) !! dat_area_id r = Some a /\
      dat_is_abnormal r = true /\
      clock s (ticks s) - timedelta_of_days days <= dat_collect_time r /\
      idx_index_name i = index_name /\
      area_type a = "核心保护区" /\
      row = core_abnormal_row r i d a).
  { intros row. rewrite elem_of_sort_by, elem_of_for_each. split.
    - intros (r & Hr & Hrow). apply elem_of_table_values in Hr.
      apply elem_of_for_each in Hrow as (i & Hi & Hrow).
      apply elem_of_for_each in Hrow as (d & Hd & Hrow).
      apply elem_of_for_each in Hrow as (a & Ha & Hrow).
      apply elem_of_joined in Hi as (? & [= <-] & Hi).
      apply elem_of_joined in Hd as (? & [= <-] & Hd).
      apply elem_of_joined in Ha as (? & [= <-] & Ha).
      destruct (_ && _) eqn:Hcond in Hrow; [| by apply elem_of_nil in Hrow].
      apply list_elem_of_singleton in Hrow.
      rewrite !andb_true_iff in Hcond. destruct Hcond as [[[Ht Hn] Hab] Htime].
      apply String.eqb_eq in Ht, Hn. apply Z.leb_le in Htime.
      exists r, i, d, a. repeat split; assumption.
    - intros (r & i & d & a & Hr & Hi & Hd & Ha & Hab & Htime & Hn & Ht & ->).
      exists r. split; [by apply elem_of_table_values |].
      apply elem_of_for_each. exists i. split; [apply elem_of_joined; eauto |].
      apply elem_of_for_each. exists d. split; [apply elem_of_joined; eauto |].
      apply elem_of_for_each. exists a. split; [apply elem_of_joined; eauto |].
      apply String.eqb_eq in Ht, Hn. apply Z.leb_le in Htime.
      rewrite Ht, Hn, Hab, Htime. simpl. apply list_elem_of_here. }
  split; [exact Hmem |]. split.
  - apply Sorted_StronglySorted.
    + intros a b c Hab Hbc. lia.
    + eapply Sorted_ind with (P := Sorted _); [constructor | |
        apply (sort_by_sorted (fun y x => ca_collect_time x <? ca_collect_time y))].
      * intros a l _ IH Hhd. constructor; [exact IH |].
        destruct Hhd as [|b l Hab]; constructor.
        unfold in_order in Hab. apply Z.ltb_ge in Hab. exact Hab.
      * intros a b Hab. apply Z.ltb_lt in Hab. apply Z.ltb_ge. lia.
  - intros Hnone. apply elem_of_nil_inv. intros row Hin.
    apply Hmem in Hin as (r & i & d & a & _ & Hi & _ & _ & _ & _ & Hn & _).
    by apply Hnone in Hi.
Qed.

(** The sample store holds an abnormal PM25 reading of the core area, R4,
    collected twenty days after the call, and another, R5, collected the
    day before the call by a device the registry does not have.  The
    report returns R4, which is outside a window that ends at the call
    time, and does not return R5, which is abnormal, inside the window,
    of the named indicator and of a core-protection area. *)
Lemma core_abnormal_report_counterexample :
  exists result,
    (query_core_protection_abnormal_data "PM25" 30 Sample.session).1 = Ok result /\
    ca_data_id <$> result = ["R4"; "R0"] /\
    env_data (working Sample.session) !! "R4" = Some Sample.r4 /\
    clock Sample.session (ticks Sample.session) < dat_collect_time Sample.r4 /\
    env_data (working Sample.session) !! "R5" = Some Sample.r5 /\
    dat_is_abnormal Sample.r5 = true /\
    clock Sample.session (ticks Sample.session) - timedelta_of_days 30
      <= dat_collect_time Sample.r5
      <= clock Sample.session (ticks Sample.session) /\
    idx_index_name <$> indices (working Sample.session) !! dat_index_id Sample.r5
      = Some "PM25" /\
    area_type <$> areas (working Sample.session) !! dat_area_id Sample.r5
      = Some "核心保护区" /\
    devices (working Sample.session) !! dat_device_id Sample.r5 = None.
Proof.
  eexists. split; [vm_compute; reflexivity |].
  repeat split; vm_compute; congruence.
Qed.

(** *** Device quality rate *)

(** The readings of a device collected from [start_time] on, and those
    among a list of readings that are graded excellent or good. *)
Definition window_readings (st : Store) (start_time : datetime) (device_id : Z)
  : list DataRow :=
  List.filter (fun r => (dat_device_id r =? device_id)
                        && (start_time <=? dat_collect_time r))
              (map_to_list (env_data st)).*2.

Definition qualified_readings (l : list DataRow) : list DataRow :=
  List.filter (fun r => String.eqb (dat_data_quality r) "优"
                        || String.eqb (dat_data_quality r) "良") l.

Lemma outer_join_count (matched : list DataRow) :
  sql_count (List.map (option_map dat_data_id)
               match matched with
               | [] => [None]
               | _ => List.map Some matched
               end)
  = Z.of_nat (length matched).
Proof.
  destruct matched as [|r l]; [reflexivity |].
  generalize (r :: l). intros m. unfold sql_count. f_equal.
  induction m as [|x m IH]; simpl; [reflexivity | by rewrite IH].
Qed.

Lemma outer_join_sum (matched : list DataRow) :
  sql_sum (List.map (fun o => if quality_qualified (option_map dat_data_quality o)
                              then 1 else 0)
             match matched with
             | [] => [None]
             | _ => List.map Some matched
             end)
  = Some (Z.of_nat (length (qualified_readings matched))).
Proof.
  destruct matched as [|r l]; [reflexivity |].
  assert (Hsum : forall m : list DataRow,
    foldr Z.add 0
      (List.map (fun o => if quality_qualified (option_map dat_data_quality o)
                          then 1 else 0) (List.map Some m))
    = Z.of_nat (length (qualified_readings m))).
  { induction m as [|x m IH]; [reflexivity |].
    cbn [List.map foldr qualified_readings List.filter option_map quality_qualified].
    rewrite IH. unfold qualified_readings.
    destruct (_ || _); cbn [length]; lia. }
  unfold sql_sum. cbn [List.map]. f_equal. apply (Hsum (r :: l)).
Qed.

Lemma quality_loop_map (rows : list QualityGroup) (acc : list QualityRow) :
  foldl (fun result r =>
           let total := qg_total_data_count r in
           let qualified := default 0 (qg_qualified_count r) in
           let rate := quality_rate qualified total in
           result ++ [ mkQualityRow (qg_device_id r) (qg_device_type r)
                         (qg_area_name r) total qualified rate ])
        acc rows
  = acc ++ List.map (fun r =>
             mkQualityRow (qg_device_id r) (qg_device_type r) (qg_area_name r)
               (qg_total_data_count r) (default 0 (qg_qualified_count r))
               (quality_rate (default 0 (qg_qualified_count r))
                             (qg_total_data_count r))) rows.
Proof.
  revert acc. induction rows as [|r rows IH]; intros acc; simpl.
  - by rewrite app_nil_r.
  - by rewrite IH, <- app_assoc.
Qed.

(** The row the report shows for device [d] deployed in area [a]. *)
Definition quality_row (st : Store) (start_time : datetime) (d : DeviceRow)
    (a : AreaRow) : QualityRow :=
  let readings := window_readings st start_time (dev_id d) in
  let total := Z.of_nat (length readings) in
  let qualified := Z.of_nat (length (qualified_readings readings)) in
  mkQualityRow (dev_id d) (dev_type d) (area_name a) total qualified
               (quality_rate qualified total).

Lemma elem_of_device_quality_groups (start_time : datetime) (st : Store)
    (g : QualityGroup) :
  g ∈ device_quality_groups start_time st <->
  exists d area a,
    (exists k, devices st !! k = Some d) /\
    dev_deployment_area_id d = Some area /\
    areas st !! area = Some a /\
    g = mkQualityGroup (dev_id d) (dev_type d) (area_name a)
          (Z.of_nat (length (window_readings st start_time (dev_id d))))
          (Some (Z.of_nat (length (qualified_readings
                                     (window_readings st start_time (dev_id d)))))).
Proof.
  unfold device_quality_groups. rewrite elem_of_for_each. split.
  - intros (d & Hd & Hg). apply elem_of_table_values in Hd.
    apply elem_of_for_each in Hg as (a & Ha & Hg).
    apply elem_of_joined in Ha as (area & Harea & Ha).
    apply list_elem_of_singleton in Hg.
    rewrite outer_join_count, outer_join_sum in Hg.
    exists d, area, a. auto.
  - intros (d & area & a & Hd & Harea & Ha & ->).
    exists d. split; [by apply elem_of_table_values |].
    apply elem_of_for_each. exists a. split; [apply elem_of_joined; eauto |].
    rewrite outer_join_count, outer_join_sum. apply list_elem_of_here.
Qed.

Lemma get_device_data_quality_rate_run (days : Z) (s : Session) :
  let start_time := clock s (ticks s) - timedelta_of_days days in
  (get_device_data_quality_rate days s).1
  = Ok (sort_by (fun y x => (qr_qualified_rate x <? qr_qualified_rate y)%float)
          (List.map (fun r =>
             mkQualityRow (qg_device_id r) (qg_device_type r) (qg_area_name r)
               (qg_total_data_count r) (default 0 (qg_qualified_count r))
               (quality_rate (default 0 (qg_qualified_count r))
                             (qg_total_data_count r)))
             (device_quality_groups start_time (working s)))).
Proof.
  unfold get_device_data_quality_rate. db_unfold. simpl.
  by rewrite quality_loop_map.
Qed.

(** C6, as the code has it.  The quality report has exactly one kind of
    row: for a device whose deployment area exists, the device, the area
    name, the number of its readings collected at or after the call time
    minus the day count, the number of those graded 优 or 良, and the
    rate.  A row with no reading counted has zero qualified readings and
    the rate 0.0; any other row has the rate
    [round(qualified * 100.0 / total, 2)].  No row is followed by one with a
    greater rate. *)
Theorem device_quality_rate_rows (days : Z) (s : Session) :
  exists result,
    (get_device_data_quality_rate days s).1 = Ok result /\
    (forall row,
       row ∈ result <->
       exists d area a,
         (exists k, devices (working s) !! k = Some d) /\
         dev_deployment_area_id d = Some area /\
         areas (working s) !! area = Some a /\
         row = quality_row (working s)
                 (clock s (ticks s) - timedelta_of_days days) d a) /\
    (forall row,
       row ∈ result ->
       (qr_total_data_count row = 0 ->
        qr_qualified_count row = 0 /\ qr_qualified_rate row = 0%float) /\
       (qr_total_data_count row <> 0 ->
        qr_qualified_rate row
        = py_round2 (float_of_count (qr_qualified_count row) * 100
                     / float_of_count (qr_total_data_count row))%float)) /\
    Sorted (fun a b => (qr_qualified_rate a <? qr_qualified_rate b)%float = false)
           result.
Proof.
  eexists. split; [apply get_device_data_quality_rate_run |].
  set (start_time := clock s (ticks s) - timedelta_of_days days).
  assert (Hmem : forall row,
    row ∈ sort_by (fun y x => (qr_qualified_rate x <? qr_qualified_rate y)%float)
          (List.map (fun r =>
             mkQualityRow (qg_device_id r) (qg_device_type r) (qg_area_name r)
               (qg_total_data_count r) (default 0 (qg_qualified_count r))
               (quality_rate (default 0 (qg_qualified_count r))
                             (qg_total_data_count r)))
             (device_quality_groups start_time (working s)))
    <-> exists d area a,
          (exists k, devices (working s) !! k = Some d) /\
          dev_deployment_area_id d = Some area /\
          areas (working s) !! area = Some a /\
          row = quality_row (working s) start_time d a).
  { intros row. rewrite elem_of_sort_by, list_elem_of_In, in_map_iff. split.
    - intros (g & <- & Hg). apply list_elem_of_In in Hg.
      apply elem_of_device_quality_groups in Hg
        as (d & area & a & Hd & Harea & Ha & ->).
      exists d, area, a. auto.
    - intros (d & area & a & Hd & Harea & Ha & ->).
      eexists. split; [| apply list_elem_of_In, elem_of_device_quality_groups;
                         exists d, area, a; eauto].
      reflexivity. }
  split; [exact Hmem |]. split.
  - intros row Hrow. apply Hmem in Hrow as (d & area & a & _ & _ & _ & ->).
    unfold quality_row. cbn [qr_total_data_count qr_qualified_count qr_qualified_rate].
    split.
    + intros Hzero.
      destruct (window_readings (working s) start_time (dev_id d)); [| discriminate].
      split; reflexivity.
    + intros Hpos. unfold quality_rate.
      destruct (Z.eqb_spec (Z.of_nat (length (window_readings (working s)
                                                start_time (dev_id d)))) 0);
        [contradiction | reflexivity].
  - apply (sort_by_sorted
             (fun y x => (qr_qualified_rate x <? qr_qualified_rate y)%float)).
    intros a b. apply float_ltb_asym.
Qed.

(** On the sample store, with a window of 30 days: device 5 is registered
    but deployed in no area, and the report has no row for it; device 1
    has three readings, one of them qualified, and its rate is 33.33, which
    is not 100 times one third. *)
Lemma device_quality_rate_counterexample :
  exists result,
    (get_device_data_quality_rate 30 Sample.session).1 = Ok result /\
    devices (working Sample.session) !! 5 = Some Sample.d5 /\
    (fun row => (qr_device_id row, qr_total_data_count row, qr_qualified_count row))
      <$> result
    = [(2, 1, 1); (1, 3, 1); (3, 1, 0); (4, 0, 0)] /\
    qr_qualified_rate <$> result
    = [100%float; (float_of_count 3333 / 100)%float; 0%float; 0%float] /\
    ((float_of_count 3333 / 100 <? float_of_count 1 * 100 / float_of_count 3)%float
     = true).
Proof.
  eexists. split; [vm_compute; reflexivity |].
  repeat split; vm_compute; reflexivity.
Qed.

(** * Further properties of the operations *)

(** Fixtures for the properties below. *)
Module Scenario.

Definition visitor : Api.User := Api.mkUser "游客".

Definition new_index : MonitorIndexCreate :=
  mkIndexCreate "NO2" "二氧化氮" "ug/m3" 40 0 "小时".

Definition new_device : MonitorDeviceCreate :=
  mkDeviceCreate "水质监测仪" (Some 1) None 30 "正常" None None None None.

(** A reading of 90 against PM25, by device 1 in the core area, sent
    without an id. *)
Definition anonymous_reading : EnvironmentDataCreate :=
  mkDataCreate None "PM25" 1 (Sample.day 99) 90 1 "良".

(** A PATCH that lifts the upper threshold to 100. *)
Definition lift_upper : MonitorIndexUpdate :=
  mkIndexUpdate Unset Unset (Given (Some 100%float)) Unset Unset.

End Scenario.

(** ** Callers without the manager role *)

(** X1.  A caller whose role is not one of the two manager roles gets
    HTTP 403 from every guarded handler, and the session is left exactly as
    it was: nothing is read, written or committed, no clock reading is
    taken. *)
Theorem guarded_handlers_refuse_other_roles (u : Api.User) (s : Session) :
  Api.role_type u ∉ Api.managers ->
  let refused {A} (call : db A) :=
    call s = (Raise (HTTPException 403 "需要公园管理人员权限"), s) in
  (forall index, refused (Api.create_monitor_index index u)) /\
  (forall index_id payload, refused (Api.update_monitor_index index_id payload u)) /\
  (forall data_id status reason,
     refused (Api.audit_environment_data data_id status reason u)) /\
  (forall float_str generated_id data,
     refused (Api.create_environment_data float_str generated_id data (Some u))) /\
  (forall generated_id record,
     refused (Api.create_calibration_record generated_id record u)) /\
  (forall identity device, refused (Handlers.create_monitor_device identity device u)) /\
  (forall device_id status, refused (Handlers.update_device_status device_id status u)) /\
  (forall area start_time end_time,
     refused (Handlers.get_abnormal_data_by_area area start_time end_time u)) /\
  (forall index_name days,
     refused (Handlers.get_core_protection_abnormal_report index_name days u)) /\
  (forall days, refused (Handlers.get_device_quality_rate_report days u)) /\
  (forall days, refused (Handlers.get_overdue_calibration_data_report days u)) /\
  (forall index_id, refused (Handlers.delete_monitor_index index_id u)) /\
  (forall device_id, refused (Handlers.delete_monitor_device device_id u)) /\
  (forall data_id, refused (Handlers.delete_environment_data data_id u)) /\
  (forall record_id, refused (Handlers.delete_calibration_record record_id u)).
Proof.
  intros Hrole. cbv zeta.
  repeat split; intros;
    unfold Api.create_monitor_index, Api.update_monitor_index,
      Api.audit_environment_data, Api.create_environment_data,
      Api.create_calibration_record, Handlers.create_monitor_device,
      Handlers.update_device_status, Handlers.get_abnormal_data_by_area,
      Handlers.get_core_protection_abnormal_report,
      Handlers.get_device_quality_rate_report,
      Handlers.get_overdue_calibration_data_report,
      Handlers.delete_monitor_index, Handlers.delete_monitor_device,
      Handlers.delete_environment_data, Handlers.delete_calibration_record;
    unfold mbind, db_bind;
    by rewrite require_roles_denied.
Qed.

Lemma guarded_handlers_refuse_other_roles_witness :
  (Api.role_type Scenario.visitor ∉ Api.managers) /\
  Handlers.delete_monitor_index "PM25" Scenario.visitor Sample.session
  = (Raise (HTTPException 403 "需要公园管理人员权限"), Sample.session) /\
  Api.audit_environment_data "R0" "已审核" None Scenario.visitor Sample.session
  = (Raise (HTTPException 403 "需要公园管理人员权限"), Sample.session).
Proof.
  assert (Hrole : Api.role_type Scenario.visitor ∉ Api.managers).
  { intros Hin. repeat (apply elem_of_cons in Hin as [Hin | Hin]; [discriminate |]).
    by apply elem_of_nil in Hin. }
  split; [exact Hrole |].
  pose proof (guarded_handlers_refuse_other_roles Scenario.visitor Sample.session
                Hrole) as H.
  cbv zeta in H. split; [apply H | apply H].
Defined.

(** ** Creating and reading back *)

Lemma create_monitor_index_run (index : MonitorIndexCreate) (s : Session) :
  indices (working s) !! mic_index_id index = None ->
  flush_error s = false ->
  let row := mkIndex (mic_index_id index) (mic_index_name index) (mic_unit index)
               (mic_upper_threshold index) (mic_lower_threshold index)
               (mic_monitor_frequency index)
               (Some (clock s (ticks s))) (Some (clock s (S (ticks s)))) in
  let st := set_indices (<[mic_index_id index := row]> (indices (working s)))
              (working s) in
  create_monitor_index index s
  = (Ok row, mkSession st st false (st :: commit_log s) (clock s) (S (S (ticks s)))).
Proof.
  intros Hfresh Hflush. unfold create_monitor_index. db_unfold. simpl.
  unfold add_index, commit, refresh_index. simpl.
  rewrite Hfresh. simpl. rewrite Hflush. simpl.
  rewrite lookup_insert_eq. reflexivity.
Qed.

(** X2.  A manager who creates an indicator under an unused id gets back
    the row with the submitted columns and two clock readings as
    timestamps; the row is committed and nothing else in the store
    changes; reading the id back returns that row, and creating under the
    same id again is refused with HTTP 400, the session unchanged. *)
Theorem indicator_created_then_found (index : MonitorIndexCreate) (u : Api.User)
    (s : Session) :
  Api.role_type u ∈ Api.managers ->
  indices (working s) !! mic_index_id index = None ->
  flush_error s = false ->
  exists row s',
    Api.create_monitor_index index u s = (Ok row, s') /\
    row = mkIndex (mic_index_id index) (mic_index_name index) (mic_unit index)
            (mic_upper_threshold index) (mic_lower_threshold index)
            (mic_monitor_frequency index)
            (Some (clock s (ticks s))) (Some (clock s (S (ticks s)))) /\
    committed s'
    = set_indices (<[mic_index_id index := row]> (indices (working s))) (working s) /\
    Handlers.get_monitor_index (mic_index_id index) s' = (Ok row, s') /\
    Api.create_monitor_index index u s'
    = (Raise (HTTPException 400 "指标编号已存在"), s').
Proof.
  intros Hrole Hfresh Hflush.
  pose proof (create_monitor_index_run index s Hfresh Hflush) as Hrun.
  simpl in Hrun. eexists _, _. split.
  - unfold Api.create_monitor_index, get_monitor_index. db_unfold.
    rewrite require_roles_allowed by done. rewrite Hfresh. exact Hrun.
  - split; [reflexivity |]. split; [reflexivity |]. split.
    + unfold Handlers.get_monitor_index, get_monitor_index. db_unfold. simpl.
      by rewrite lookup_insert_eq.
    + eapply create_monitor_index_conflict; [done |]. simpl.
      apply lookup_insert_eq.
Qed.

Lemma indicator_created_then_found_witness :
  (Api.role_type Sample.manager ∈ Api.managers /\
   indices (working Sample.session) !! "NO2" = None /\
   flush_error Sample.session = false) /\
  exists row s',
    Api.create_monitor_index Scenario.new_index Sample.manager Sample.session
    = (Ok row, s') /\
    idx_upper_threshold row = 40%float /\
    Handlers.get_monitor_index "NO2" s' = (Ok row, s').
Proof.
  assert (Hrole : Api.role_type Sample.manager ∈ Api.managers)
    by (apply list_elem_of_here).
  split; [repeat split; exact Hrole |].
  destruct (indicator_created_then_found Scenario.new_index Sample.manager
              Sample.session Hrole eq_refl eq_refl)
    as (row & s' & Hrun & Hrow & _ & Hget & _).
  exists row, s'. split; [exact Hrun |]. split; [by rewrite Hrow | exact Hget].
Defined.

(** X3.  A reading sent without an id by a caller who did not log in is
    accepted: the handler takes one clock reading, makes up an id from it,
    and stores the reading under that id, classified like any other.  If
    the made-up id is already in use the call is refused with HTTP 400. *)
Theorem reading_without_id_is_stored (float_str : float -> string)
    (generated_id : string -> datetime -> string)
    (data : EnvironmentDataCreate) (s : Session) :
  edc_data_id data = None ->
  flush_error s = false ->
  let data_id := generated_id "ED" (clock s (ticks s)) in
  let s1 := (datetime_now s).2 in
  (env_data (working s) !! data_id = None ->
   exists s',
     Api.create_environment_data float_str generated_id data None s
     = (Ok (ingested_row float_str (Api.set_data_id data data_id) data_id s1), s') /\
     env_data (committed s') !! data_id
     = Some (ingested_row float_str (Api.set_data_id data data_id) data_id s1)) /\
  (forall existing, env_data (working s) !! data_id = Some existing ->
     Api.create_environment_data float_str generated_id data None s
     = (Raise (HTTPException 400 "数据编号已存在"), s1)).
Proof.
  intros Hid Hflush data_id s1. split.
  - intros Hfresh.
    pose proof (create_environment_data_run float_str
                  (Api.set_data_id data data_id) data_id s1 eq_refl Hfresh Hflush)
      as Hrun. simpl in Hrun.
    eexists. split.
    + unfold Api.create_environment_data, get_environment_data. db_unfold.
      rewrite Hid. simpl. fold data_id. rewrite Hfresh. exact Hrun.
    + simpl. apply lookup_insert_eq.
  - intros existing Hex.
    unfold Api.create_environment_data, get_environment_data. db_unfold.
    rewrite Hid. simpl. fold data_id. by rewrite Hex.
Qed.

Lemma reading_without_id_is_stored_witness :
  (edc_data_id Scenario.anonymous_reading = None /\
   flush_error Sample.session = false /\
   env_data (working Sample.session) !! "ED_generated" = None) /\
  exists row s',
    Api.create_environment_data Sample.float_str Sample.generated_id
      Scenario.anonymous_reading None Sample.session = (Ok row, s') /\
    env_data (committed s') !! "ED_generated" = Some row /\
    dat_is_abnormal row = true.
Proof.
  split; [repeat split |].
  destruct (reading_without_id_is_stored Sample.float_str Sample.generated_id
              Scenario.anonymous_reading Sample.session eq_refl eq_refl)
    as [Hfresh _].
  destruct (Hfresh eq_refl) as (s' & Hrun & Hstored).
  eexists _, s'. split; [exact Hrun |]. split; [exact Hstored | reflexivity].
Defined.

(** ** Deleting *)

Lemma delete_environment_data_found (data_id : string) (s : Session) (r : DataRow) :
  flush_error s = false ->
  env_data (working s) !! data_id = Some r ->
  let st := set_env_data (delete data_id (env_data (working s))) (working s) in
  Queries.delete_environment_data data_id s
  = (Ok true, mkSession st st false (st :: commit_log s) (clock s) (ticks s)).
Proof.
  intros Hflush Hr. unfold Queries.delete_environment_data. db_unfold.
  rewrite Hr. unfold delete_data_row, commit. simpl. by rewrite Hflush.
Qed.

(** X4.  A manager who deletes a stored reading gets the success message;
    the committed store is the old one without that row, and reading the id
    back answers 404.  Deleting an id that is not stored answers 404 and
    leaves the session as it was. *)
Theorem reading_deleted_or_not_found (data_id : string) (u : Api.User)
    (s : Session) :
  Api.role_type u ∈ Api.managers ->
  flush_error s = false ->
  (forall r, env_data (working s) !! data_id = Some r ->
     exists s',
       Handlers.delete_environment_data data_id u s = (Ok "删除成功", s') /\
       committed s'
       = set_env_data (delete data_id (env_data (working s))) (working s) /\
       Handlers.get_environment_data data_id s'
       = (Raise (HTTPException 404 "监测数据不存在"), s')) /\
  (env_data (working s) !! data_id = None ->
     Handlers.delete_environment_data data_id u s
     = (Raise (HTTPException 404 "监测数据不存在"), s)).
Proof.
  intros Hrole Hflush. split.
  - intros r Hr.
    pose proof (delete_environment_data_found data_id s r Hflush Hr) as Hrun.
    simpl in Hrun. eexists. split.
    + unfold Handlers.delete_environment_data. db_unfold.
      rewrite require_roles_allowed by done. rewrite Hrun. reflexivity.
    + split; [reflexivity |].
      unfold Handlers.get_environment_data, get_environment_data. db_unfold.
      simpl. by rewrite lookup_delete_eq.
  - intros Hr. unfold Handlers.delete_environment_data,
      Queries.delete_environment_data. db_unfold.
    rewrite require_roles_allowed by done. by rewrite Hr.
Qed.

Lemma reading_deleted_or_not_found_witness :
  (Api.role_type Sample.manager ∈ Api.managers /\
   flush_error Sample.session = false) /\
  (exists s',
     Handlers.delete_environment_data "R0" Sample.manager Sample.session
     = (Ok "删除成功", s') /\
     env_data (committed s') !! "R0" = None /\
     env_data (committed s') !! "R2" = Some Sample.r2) /\
  Handlers.delete_environment_data "R9" Sample.manager Sample.session
  = (Raise (HTTPException 404 "监测数据不存在"), Sample.session).
Proof.
  assert (Hrole : Api.role_type Sample.manager ∈ Api.managers)
    by (apply list_elem_of_here).
  split; [split; [exact Hrole | reflexivity] |].
  destruct (reading_deleted_or_not_found "R0" Sample.manager Sample.session
              Hrole eq_refl) as [Hfound _].
  destruct (reading_deleted_or_not_found "R9" Sample.manager Sample.session
              Hrole eq_refl) as [_ Hmissing].
  split; [| by apply Hmissing].
  destruct (Hfound Sample.r0 eq_refl) as (s' & Hrun & Hst & _).
  exists s'. split; [exact Hrun |]. rewrite Hst. split; reflexivity.
Defined.

(** X5.  Creating a reading under an unused id and then deleting it brings
    the committed store back to what it was before the two calls. *)
Theorem create_then_delete_restores_store (float_str : float -> string)
    (data : EnvironmentDataCreate) (data_id : string) (s : Session) :
  edc_data_id data = Some data_id ->
  env_data (working s) !! data_id = None ->
  flush_error s = false ->
  exists row s1 s2,
    create_environment_data float_str data s = (Ok row, s1) /\
    env_data (committed s1) !! data_id = Some row /\
    Queries.delete_environment_data data_id s1 = (Ok true, s2) /\
    committed s2 = working s.
Proof.
  intros Hid Hfresh Hflush.
  pose proof (create_environment_data_run float_str data data_id s Hid Hfresh
                Hflush) as Hrun. simpl in Hrun.
  eexists _, _, _. split; [exact Hrun |].
  split; [simpl; apply lookup_insert_eq |]. split.
  - eapply delete_environment_data_found; [reflexivity |]. simpl.
    apply lookup_insert_eq.
  - simpl. rewrite delete_insert_eq, delete_id by done.
    destruct (working s); reflexivity.
Qed.

Lemma create_then_delete_restores_store_witness :
  (edc_data_id Sample.high_reading = Some "R1" /\
   env_data (working Sample.session) !! "R1" = None /\
   flush_error Sample.session = false) /\
  exists row s1 s2,
    create_environment_data Sample.float_str Sample.high_reading Sample.session
    = (Ok row, s1) /\
    env_data (committed s1) !! "R1" = Some row /\
    Queries.delete_environment_data "R1" s1 = (Ok true, s2) /\
    committed s2 = Sample.store.
Proof.
  split; [repeat split |].
  apply (create_then_delete_restores_store Sample.float_str Sample.high_reading
           "R1" Sample.session); reflexivity.
Defined.




(** ** Device status *)

Definition with_status (d : DeviceRow) (status_value : string) (now : datetime)
  : DeviceRow :=
  mkDevice (dev_id d) (dev_type d) (dev_deployment_area_id d) (dev_install_time d)
           (dev_calibration_cycle d) (dev_last_calibration_time d) status_value
           (dev_communication_protocol d) (dev_latitude d) (dev_longitude d)
           (dev_created_at d) (Some now).

Lemma update_device_status_found (device_id : Z) (status_value : string)
    (s : Session) (d : DeviceRow) :
  flush_error s = false ->
  devices (working s) !! device_id = Some d ->
  let d' := with_status d status_value (clock s (ticks s)) in
  let st := set_devices (<[device_id := d']> (devices (working s))) (working s) in
  Queries.update_device_status device_id status_value s
  = (Ok (Some d'), mkSession st st false (st :: commit_log s) (clock s) (S (ticks s))).
Proof.
  intros Hflush Hd. unfold Queries.update_device_status. db_unfold. simpl.
  rewrite Hd. unfold write_device_at, commit, refresh_device. simpl.
  rewrite Hflush. simpl. rewrite lookup_insert_eq. reflexivity.
Qed.

(** X7.  Changing a device's status stores the given string, whatever it
    is, with no check against the three documented statuses, and the clock
    reading as update timestamp; the device's other columns, the other
    devices and the other tables stay as they were.  For an id that is not
    registered the handler answers 404 and nothing changes. *)
Theorem device_status_changes_status_only (device_id : Z) (status_value : string)
    (u : Api.User) (s : Session) :
  Api.role_type u ∈ Api.managers ->
  flush_error s = false ->
  (forall d, devices (working s) !! device_id = Some d ->
     exists d' s',
       Handlers.update_device_status device_id status_value u s = (Ok d', s') /\
       committed s'
       = set_devices (<[device_id := d']> (devices (working s))) (working s) /\
       dev_status d' = status_value /\
       dev_updated_at d' = Some (clock s (ticks s)) /\
       dev_id d' = dev_id d /\
       dev_type d' = dev_type d /\
       dev_deployment_area_id d' = dev_deployment_area_id d /\
       dev_install_time d' = dev_install_time d /\
       dev_calibration_cycle d' = dev_calibration_cycle d /\
       dev_last_calibration_time d' = dev_last_calibration_time d /\
       dev_communication_protocol d' = dev_communication_protocol d /\
       dev_latitude d' = dev_latitude d /\
       dev_longitude d' = dev_longitude d /\
       dev_created_at d' = dev_created_at d) /\
  (devices (working s) !! device_id = None ->
     Handlers.update_device_status device_id status_value u s
     = (Raise (HTTPException 404 "监测设备不存在"), s)).
Proof.
  intros Hrole Hflush. split.
  - intros d Hd.
    pose proof (update_device_status_found device_id status_value s d Hflush Hd)
      as Hrun. simpl in Hrun.
    eexists _, _. split.
    + unfold Handlers.update_device_status. db_unfold.
      rewrite require_roles_allowed by done. rewrite Hrun. reflexivity.
    + simpl. repeat split; reflexivity.
  - intros Hd. unfold Handlers.update_device_status, Queries.update_device_status.
    db_unfold. rewrite require_roles_allowed by done. by rewrite Hd.
Qed.

Lemma device_status_changes_status_only_witness :
  (Api.role_type Sample.manager ∈ Api.managers /\
   flush_error Sample.session = false) /\
  (exists d' s',
     Handlers.update_device_status 2 "报废" Sample.manager Sample.session
     = (Ok d', s') /\
     dev_status d' = "报废" /\
     dev_calibration_cycle d' = Some 30) /\
  Handlers.update_device_status 77 "正常" Sample.manager Sample.session
  = (Raise (HTTPException 404 "监测设备不存在"), Sample.session).
Proof.
  assert (Hrole : Api.role_type Sample.manager ∈ Api.managers)
    by (apply list_elem_of_here).
  split; [split; [exact Hrole | reflexivity] |].
  destruct (device_status_changes_status_only 2 "报废" Sample.manager
              Sample.session Hrole eq_refl) as [Hfound _].
  destruct (device_status_changes_status_only 77 "正常" Sample.manager
              Sample.session Hrole eq_refl) as [_ Hmissing].
  split; [| by apply Hmissing].
  destruct (Hfound Sample.d2 eq_refl)
    as (d' & s' & Hrun & _ & Hst & _ & _ & _ & _ & _ & Hcycle & _).
  exists d', s'. repeat split; assumption.
Defined.

(** X8.  Once a device's status is set to offline, the calibration-due
    query run afterwards does not return it, however long ago it was
    calibrated. *)
Theorem offline_device_drops_out_of_due_list (device_id : Z) (s : Session)
    (d : DeviceRow) :
  flush_error s = false ->
  devices (working s) !! device_id = Some d ->
  exists d' s' result,
    Queries.update_device_status device_id "离线" s = (Ok (Some d'), s') /\
    devices (committed s') !! device_id = Some d' /\
    (get_devices_needing_calibration s').1 = Ok result /\
    d' ∉ result.
Proof.
  intros Hflush Hd.
  pose proof (update_device_status_found device_id "离线" s d Hflush Hd) as Hrun.
  simpl in Hrun.
  eexists _, _, _. split; [exact Hrun |]. split; [apply lookup_insert_eq |].
  split; [apply get_devices_needing_calibration_run |].
  intros Hin. apply elem_of_filter_bool in Hin as [Hin _].
  apply elem_of_filter_bool in Hin as [_ Hst]. simpl in Hst. discriminate.
Qed.

Lemma offline_device_drops_out_of_due_list_witness :
  (flush_error Sample.session = false /\
   devices (working Sample.session) !! 2 = Some Sample.d2) /\
  exists d' s' result,
    Queries.update_device_status 2 "离线" Sample.session = (Ok (Some d'), s') /\
    devices (committed s') !! 2 = Some d' /\
    (get_devices_needing_calibration s').1 = Ok result /\
    d' ∉ result.
Proof.
  split; [split; reflexivity |].
  apply (offline_device_drops_out_of_due_list 2 Sample.session Sample.d2);
    reflexivity.
Defined.

(** ** Calibration and the due list *)

(** X9.  When a calibration is recorded for a registered device whose
    cycle is not negative, and the calibration time is less than a day
    before the next clock reading (or after it), the due query run next
    does not return the device. *)
Theorem recorded_calibration_clears_due (record : CalibrationRecordCreate)
    (record_id : string) (s : Session) (d : DeviceRow) :
  crc_record_id record = Some record_id ->
  calibrations (working s) !! record_id = None ->
  flush_error s = false ->
  devices (working s) !! crc_device_id record = Some d ->
  (forall c, dev_calibration_cycle d = Some c -> 0 <= c) ->
  clock s (3 + ticks s) - crc_calibration_time record < usec_per_day ->
  exists row s' d' result,
    create_calibration_record record s = (Ok row, s') /\
    devices (committed s') !! crc_device_id record = Some d' /\
    dev_last_calibration_time d' = Some (crc_calibration_time record) /\
    (get_devices_needing_calibration s').1 = Ok result /\
    d' ∉ result.
Proof.
  intros Hid Hfresh Hflush Hd Hcycle Hsoon.
  pose proof (create_calibration_record_run record record_id s Hid Hfresh Hflush)
    as Hrun. simpl in Hrun. rewrite Hd in Hrun.
  eexists _, _, (calibrated d (crc_calibration_time record)
                   (clock s (S (S (ticks s))))), _.
  split; [exact Hrun |].
  split; [cbn [committed devices set_calibrations set_devices];
          apply lookup_insert_eq |].
  split; [reflexivity |].
  split; [apply get_devices_needing_calibration_run |].
  intros Hin. apply elem_of_filter_bool in Hin as [_ Hdue].
  unfold needs_calibration in Hdue. simpl in Hdue. apply Z.geb_le in Hdue.
  assert (Hdays : timedelta_days
                    (clock s (S (S (S (ticks s)))) - crc_calibration_time record) < 1).
  { apply Z.div_lt_upper_bound; [reflexivity |].
    change (S (S (S (ticks s)))) with (3 + ticks s)%nat. lia. }
  assert (Hmin : 1 <= py_or (dev_calibration_cycle d) 30).
  { unfold py_or. destruct (dev_calibration_cycle d) as [c|]; [| lia].
    specialize (Hcycle c eq_refl). destruct (Z.eqb_spec c 0); lia. }
  lia.
Qed.

Lemma recorded_calibration_clears_due_witness :
  (crc_record_id Sample.calibration_today = Some "C1" /\
   calibrations (working Sample.session) !! "C1" = None /\
   flush_error Sample.session = false /\
   devices (working Sample.session) !! 2 = Some Sample.d2 /\
   Sample.d2 ∈ [Sample.d5; Sample.d4; Sample.d2; Sample.d1] /\
   (get_devices_needing_calibration Sample.session).1
   = Ok [Sample.d5; Sample.d4; Sample.d2; Sample.d1]) /\
  exists row s' d' result,
    create_calibration_record Sample.calibration_today Sample.session
    = (Ok row, s') /\
    devices (committed s') !! 2 = Some d' /\
    dev_last_calibration_time d' = Some (Sample.day 100) /\
    (get_devices_needing_calibration s').1 = Ok result /\
    d' ∉ result.
Proof.
  split.
  - repeat split; try reflexivity. do 2 apply list_elem_of_further.
    apply list_elem_of_here.
  - apply (recorded_calibration_clears_due Sample.calibration_today "C1"
             Sample.session Sample.d2); try reflexivity.
    intros c [= <-]. lia.
Defined.

(** ** Listings *)

(** Sorting by an integer key, largest first. *)
Lemma sort_by_key_descending {A} (key : A -> Z) (l : list A) :
  StronglySorted (fun a b => key b <= key a)
                 (sort_by (fun y x => key x <? key y) l).
Proof.
  apply Sorted_StronglySorted; [intros a b c Hab Hbc; lia |].
  assert (Hsorted : Sorted (in_order (fun y x => key x <? key y))
                           (sort_by (fun y x => key x <? key y) l)).
  { apply sort_by_sorted. intros a b Hab. apply Z.ltb_lt in Hab.
    apply Z.ltb_ge. lia. }
  induction Hsorted as [|a m Hm IH Hhd]; constructor; [exact IH |].
  destruct Hhd as [|b m Hab]; constructor.
  unfold in_order in Hab. by apply Z.ltb_ge in Hab.
Qed.

Lemma within_spec (start_time end_time : option datetime) (t : datetime) :
  Queries.within start_time end_time t = true <->
  (forall b, start_time = Some b -> b <= t) /\
  (forall e, end_time = Some e -> t <= e).
Proof.
  unfold Queries.within. rewrite andb_true_iff.
  destruct start_time as [b|], end_time as [e|];
    rewrite ?Z.leb_le; split.
  all: try (intros [H1 H2]; split; intros ? [= <-]; assumption).
  all: try (intros [H1 H2]; split; intros ? [=]; try subst; auto).
  all: intros [H1 H2]; split; auto.
Qed.

(** X10.  The readings listed for a device are exactly the stored readings
    of that device whose collection time is not before the start bound
    and not after the end bound, each bound applying only when given (both
    ends included); they come latest first.  A device with no reading, or
    an unregistered one, gives the empty list. *)
Theorem readings_by_device_listing (device_id : Z)
    (start_time end_time : option datetime) (s : Session) :
  exists result,
    Queries.get_environment_data_by_device device_id start_time end_time s
    = (Ok result, s) /\
    (forall r,
       r ∈ result <->
       (exists k, env_data (working s) !! k = Some r) /\
       dat_device_id r = device_id /\
       (forall b, start_time = Some b -> b <= dat_collect_time r) /\
       (forall e, end_time = Some e -> dat_collect_time r <= e)) /\
    StronglySorted (fun a b => dat_collect_time b <= dat_collect_time a) result /\
    ((forall k r, env_data (working s) !! k = Some r -> dat_device_id r <> device_id) ->
     result = []).
Proof.
  eexists. split; [reflexivity |].
  assert (Hmem : forall r,
    r ∈ sort_by (fun y x => dat_collect_time x <? dat_collect_time y)
          (List.filter (fun r => (dat_device_id r =? device_id)
                                 && Queries.within start_time end_time
                                      (dat_collect_time r))
             (map_to_list (env_data (working s))).*2)
    <-> (exists k, env_data (working s) !! k = Some r) /\
        dat_device_id r = device_id /\
        (forall b, start_time = Some b -> b <= dat_collect_time r) /\
        (forall e, end_time = Some e -> dat_collect_time r <= e)).
  { intros r. rewrite elem_of_sort_by, elem_of_filter_bool, elem_of_table_values,
      andb_true_iff, Z.eqb_eq, within_spec. tauto. }
  split; [exact Hmem |]. split; [apply sort_by_key_descending |].
  intros Hnone. apply elem_of_nil_inv. intros r Hin.
  apply Hmem in Hin as ((k & Hk) & Hdev & _). by apply (Hnone k r).
Qed.

(** X11.  The abnormal readings listed for an area are exactly the stored
    readings of that area that carry the abnormal flag and lie within the
    optional bounds, latest first; the audit status plays no part, so an
    audited reading stays listed. *)
Theorem abnormal_readings_by_area_listing (area : Z)
    (start_time end_time : option datetime) (s : Session) :
  exists result,
    Queries.get_abnormal_data_by_area area start_time end_time s = (Ok result, s) /\
    (forall r,
       r ∈ result <->
       (exists k, env_data (working s) !! k = Some r) /\
       dat_area_id r = area /\
       dat_is_abnormal r = true /\
       (forall b, start_time = Some b -> b <= dat_collect_time r) /\
       (forall e, end_time = Some e -> dat_collect_time r <= e)) /\
    StronglySorted (fun a b => dat_collect_time b <= dat_collect_time a) result.
Proof.
  eexists. split; [reflexivity |]. split; [| apply sort_by_key_descending].
  intros r. rewrite elem_of_sort_by, elem_of_filter_bool, elem_of_table_values,
    !andb_true_iff, Z.eqb_eq, within_spec. tauto.
Qed.

(** ** From ingestion to the reports *)

Lemma core_abnormal_row_reported (index_name : string) (days : Z) (s : Session)
    (r : DataRow) (i : MonitorIndexRow) (d : DeviceRow) (a : AreaRow) :
  (exists k, env_data (working s) !! k = Some r) ->
  indices (working s) !! dat_index_id r = Some i ->
  devices (working s) !! dat_device_id r = Some d ->
  areas (working s) !! dat_area_id r = Some a ->
  dat_is_abnormal r = true ->
  clock s (ticks s) - timedelta_of_days days <= dat_collect_time r ->
  idx_index_name i = index_name ->
  area_type a = "核心保护区" ->
  exists report,
    (query_core_protection_abnormal_data index_name days s).1 = Ok report /\
    core_abnormal_row r i d a ∈ report.
Proof.
  intros Hr Hi Hd Ha Hab Htime Hn Ht.
  eexists. split; [apply query_core_protection_abnormal_data_run |].
  apply elem_of_sort_by, elem_of_for_each.
  exists r. split; [by apply elem_of_table_values |].
  apply elem_of_for_each. exists i. split; [apply elem_of_joined; eauto |].
  apply elem_of_for_each. exists d. split; [apply elem_of_joined; eauto |].
  apply elem_of_for_each. exists a. split; [apply elem_of_joined; eauto |].
  apply String.eqb_eq in Ht, Hn. apply Z.leb_le in Htime.
  rewrite Ht, Hn, Hab, Htime. apply list_elem_of_here.
Qed.

(** X12.  A reading ingested with a value outside the thresholds of its
    indicator is, right after the call, in the abnormal listing of its
    area; and when its device is registered, its area is a core-protection
    area and its collection time is not before the window start, it is in
    the protected-area report for the name of its indicator. *)
Theorem abnormal_reading_reaches_reports (float_str : float -> string)
    (data : EnvironmentDataCreate) (data_id : string) (s : Session)
    (i : MonitorIndexRow) :
  edc_data_id data = Some data_id ->
  env_data (working s) !! data_id = None ->
  flush_error s = false ->
  indices (working s) !! edc_index_id data = Some i ->
  (idx_upper_threshold i <? edc_monitor_value data)%float = true \/
  (edc_monitor_value data <? idx_lower_threshold i)%float = true ->
  exists row s',
    create_environment_data float_str data s = (Ok row, s') /\
    dat_is_abnormal row = true /\
    (exists listing,
       Queries.get_abnormal_data_by_area (edc_area_id data) None None s'
       = (Ok listing, s') /\
       row ∈ listing) /\
    (forall d a days,
       devices (working s) !! edc_device_id data = Some d ->
       areas (working s) !! edc_area_id data = Some a ->
       area_type a = "核心保护区" ->
       clock s (2 + ticks s) - timedelta_of_days days <= edc_collect_time data ->
       exists report,
         (query_core_protection_abnormal_data (idx_index_name i) days s').1
         = Ok report /\
         core_abnormal_row row i d a ∈ report).
Proof.
  intros Hid Hfresh Hflush Hi Hout.
  pose proof (create_environment_data_run float_str data data_id s Hid Hfresh
                Hflush) as Hrun. simpl in Hrun.
  assert (Hflag : dat_is_abnormal (ingested_row float_str data data_id s) = true).
  { unfold ingested_row, classify_reading. rewrite Hi. simpl.
    destruct (idx_upper_threshold i <? edc_monitor_value data)%float eqn:Hup;
      [done |].
    destruct Hout as [Hout | Hlow]; [discriminate Hout | by rewrite Hlow]. }
  eexists _, _. split; [exact Hrun |]. split; [exact Hflag |]. split.
  - eexists. split; [reflexivity |].
    apply elem_of_sort_by, elem_of_filter_bool. split.
    + apply elem_of_table_values. exists data_id. simpl. apply lookup_insert_eq.
    + rewrite Hflag. simpl. by rewrite Z.eqb_refl.
  - intros d a days Hd Ha Hcore Htime.
    apply core_abnormal_row_reported; simpl; try assumption; try reflexivity.
    exists data_id. apply lookup_insert_eq.
Qed.

Lemma abnormal_reading_reaches_reports_witness :
  (edc_data_id Sample.high_reading = Some "R1" /\
   env_data (working Sample.session) !! "R1" = None /\
   flush_error Sample.session = false /\
   indices (working Sample.session) !! "PM25" = Some Sample.pm25 /\
   (idx_upper_threshold Sample.pm25 <? edc_monitor_value Sample.high_reading)%float
   = true) /\
  exists row s',
    create_environment_data Sample.float_str Sample.high_reading Sample.session
    = (Ok row, s') /\
    (exists listing,
       Queries.get_abnormal_data_by_area 1 None None s' = (Ok listing, s') /\
       row ∈ listing) /\
    (exists report,
       (query_core_protection_abnormal_data "PM25" 2 s').1 = Ok report /\
       core_abnormal_row row Sample.pm25 Sample.d1 Sample.core_area ∈ report).
Proof.
  split; [repeat split |].
  destruct (abnormal_reading_reaches_reports Sample.float_str Sample.high_reading
              "R1" Sample.session Sample.pm25 eq_refl eq_refl eq_refl eq_refl
              (or_introl eq_refl))
    as (row & s' & Hrun & _ & Hlisting & Hreport).
  exists row, s'. split; [exact Hrun |]. split; [exact Hlisting |].
  apply (Hreport Sample.d1 Sample.core_area 2); try reflexivity.
  vm_compute. intros Hgt. discriminate Hgt.
Defined.

(** X13.  A calibration recorded under an unused id is, right after the
    call, in the listing of its device's calibration records, whether or
    not that device is registered; the listing holds exactly the stored
    records of the device, latest calibration first. *)
Theorem recorded_calibration_is_listed (record : CalibrationRecordCreate)
    (record_id : string) (s : Session) :
  crc_record_id record = Some record_id ->
  calibrations (working s) !! record_id = None ->
  flush_error s = false ->
  exists row s' listing,
    create_calibration_record record s = (Ok row, s') /\
    Queries.get_calibration_records_by_device (crc_device_id record) s'
    = (Ok listing, s') /\
    row ∈ listing /\
    (forall r,
       r ∈ listing <->
       (exists k, calibrations (committed s') !! k = Some r) /\
       cal_device_id r = crc_device_id record) /\
    StronglySorted (fun a b => cal_calibration_time b <= cal_calibration_time a)
                   listing.
Proof.
  intros Hid Hfresh Hflush.
  pose proof (create_calibration_record_run record record_id s Hid Hfresh Hflush)
    as Hrun. cbv zeta in Hrun.
  eexists _, _, _. split; [exact Hrun |]. split; [reflexivity |].
  cbn [working committed calibrations set_calibrations].
  assert (Hmem : forall r,
    r ∈ sort_by (fun y x => cal_calibration_time x <? cal_calibration_time y)
          (List.filter (fun r => cal_device_id r =? crc_device_id record)
             (map_to_list (<[record_id := ledger_row record record_id s]>
                             (calibrations (working s)))).*2)
    <-> (exists k, <[record_id := ledger_row record record_id s]>
                     (calibrations (working s)) !! k = Some r) /\
        cal_device_id r = crc_device_id record).
  { intros r. by rewrite elem_of_sort_by, elem_of_filter_bool,
      elem_of_table_values, Z.eqb_eq. }
  split; [| split; [exact Hmem | apply sort_by_key_descending]].
  apply Hmem. split; [| reflexivity].
  exists record_id. apply lookup_insert_eq.
Qed.

Lemma recorded_calibration_is_listed_witness :
  (crc_record_id Sample.calibration_today = Some "C1" /\
   calibrations (working Sample.session) !! "C1" = None /\
   flush_error Sample.session = false) /\
  exists row s' listing,
    create_calibration_record Sample.calibration_today Sample.session
    = (Ok row, s') /\
    Queries.get_calibration_records_by_device 2 s' = (Ok listing, s') /\
    cal_record_id <$> listing = ["C1"; "C0"].
Proof.
  split; [repeat split |].
  destruct (recorded_calibration_is_listed Sample.calibration_today "C1"
              Sample.session eq_refl eq_refl eq_refl)
    as (row & s' & listing & Hrun & Hlist & _).
  exists row, s', listing. split; [exact Hrun |]. split; [exact Hlist |].
  rewrite (create_calibration_record_run Sample.calibration_today "C1"
             Sample.session eq_refl eq_refl eq_refl) in Hrun.
  injection Hrun as <- <-. injection Hlist as <-. vm_compute. reflexivity.
Defined.

(** ** The overdue-calibration report *)



(** ** Paging through the indicators *)

(** X15.  Pages of the indicator listing tile it: a page of [limit] rows
    from [skip] followed by the page of [limit'] rows from [skip + limit] is
    the page of [limit + limit'] rows from [skip], so between consecutive
    pages no row is repeated or lost.  A page has at most [limit] rows, all
    of them stored indicators, and when the collation order is asymmetric
    no row is followed by one created later (rows without a creation time
    come last). *)
Theorem indicator_pages_tile (collation_lt : string -> string -> bool)
    (skip limit limit' : nat) (s : Session) :
  (forall a b, collation_lt a b = true -> collation_lt b a = false) ->
  exists page next both,
    Queries.list_monitor_indices collation_lt skip limit s = (Ok page, s) /\
    Queries.list_monitor_indices collation_lt (skip + limit) limit' s
    = (Ok next, s) /\
    Queries.list_monitor_indices collation_lt skip (limit + limit') s
    = (Ok both, s) /\
    both = page ++ next /\
    (length page <= limit)%nat /\
    (forall r, r ∈ page -> exists k, indices (working s) !! k = Some r) /\
    Sorted (fun a b => nullable_lt (idx_created_at a) (idx_created_at b) = false)
           page.
Proof.
  intros Hasym. eexists _, _, _.
  do 3 (split; [reflexivity |]).
  set (before := fun y x : MonitorIndexRow =>
         nullable_lt (idx_created_at x) (idx_created_at y)
         || (negb (nullable_lt (idx_created_at y) (idx_created_at x))
             && collation_lt (idx_index_id y) (idx_index_id x))).
  set (all := sort_by before (map_to_list (indices (working s))).*2).
  split; [| split; [| split]].
  - by rewrite <- take_take_drop, drop_drop.
  - rewrite length_take. lia.
  - intros r Hr. apply subseteq_take, subseteq_drop in Hr.
    apply elem_of_sort_by in Hr. by apply elem_of_table_values.
  - assert (Hall : Sorted (in_order before) all).
    { apply sort_by_sorted. intros a b Hab. unfold before in *.
      assert (Hnull : forall x y, nullable_lt x y = true -> nullable_lt y x = false).
      { intros [x|] [y|]; simpl; try done. intros H%Z.ltb_lt. apply Z.ltb_ge. lia. }
      apply orb_true_iff in Hab as [Hlt | Heq].
      - rewrite Hlt. simpl. by rewrite (Hnull _ _ Hlt).
      - apply andb_true_iff in Heq as [Hnot Hcol]. apply negb_true_iff in Hnot.
        rewrite Hnot, (Hasym _ _ Hcol). simpl. by rewrite andb_false_r. }
    assert (Hweak : Sorted (fun a b => nullable_lt (idx_created_at a)
                                         (idx_created_at b) = false) all).
    { induction Hall as [|a m Hm IH Hhd]; constructor; [exact IH |].
      destruct Hhd as [|b m Hab]; constructor.
      unfold in_order, before in Hab. by apply orb_false_iff in Hab as [Hab _]. }
    clear Hall. clearbody all. clear before.
    assert (Hdrop : forall n (l : list MonitorIndexRow),
      Sorted (fun a b => nullable_lt (idx_created_at a) (idx_created_at b) = false) l ->
      Sorted (fun a b => nullable_lt (idx_created_at a) (idx_created_at b) = false)
             (drop n l)).
    { induction n as [|n IH]; intros l Hl; [exact Hl |].
      destruct l as [|x l]; [constructor |]. simpl. apply IH.
      by apply Sorted_inv in Hl as [Hl _]. }
    assert (Htake : forall n (l : list MonitorIndexRow),
      Sorted (fun a b => nullable_lt (idx_created_at a) (idx_created_at b) = false) l ->
      Sorted (fun a b => nullable_lt (idx_created_at a) (idx_created_at b) = false)
             (take n l)).
    { induction n as [|n IH]; intros l Hl; [constructor |].
      destruct l as [|x l]; [constructor |]. simpl.
      apply Sorted_inv in Hl as [Hl Hhd]. constructor; [by apply IH |].
      destruct Hhd as [|y l Hxy]; destruct n; simpl; constructor; assumption. }
    apply Htake, Hdrop, Hweak.
Qed.

Lemma indicator_pages_tile_witness :
  (forall a b, String.ltb a b = true -> String.ltb b a = false) /\
  exists page next both,
    Queries.list_monitor_indices String.ltb 0 1 Sample.session
    = (Ok page, Sample.session) /\
    Queries.list_monitor_indices String.ltb 1 1 Sample.session
    = (Ok next, Sample.session) /\
    Queries.list_monitor_indices String.ltb 0 2 Sample.session
    = (Ok both, Sample.session) /\
    both = page ++ next /\
    (length page <= 1)%nat.
Proof.
  assert (Hasym : forall a b, String.ltb a b = true -> String.ltb b a = false).
  { intros a b. unfold String.ltb.
    rewrite (String.compare_antisym a b).
    destruct (String.compare b a); simpl; congruence. }
  split; [exact Hasym |].
  destruct (indicator_pages_tile String.ltb 0 1 1 Sample.session Hasym)
    as (page & next & both & H1 & H2 & H3 & H4 & H5 & _).
  exists page, next, both. repeat split; assumption.
Defined.

(** ** Thresholds and the readings already stored *)

(** X16.  Updating an indicator leaves every stored reading as it is,
    flag and reason included: there is no reclassification.  A reading
    ingested afterwards against that indicator is flagged by the
    thresholds as updated. *)
Theorem threshold_update_is_not_retroactive (index_id : string)
    (payload : MonitorIndexUpdate) (u : Api.User) (s : Session)
    (r : MonitorIndexRow) :
  flush_error s = false ->
  Api.role_type u ∈ Api.managers ->
  indices (working s) !! index_id = Some r ->
  idx_index_id r = index_id ->
  exists r' s',
    Api.update_monitor_index index_id payload u s = (Ok r', s') /\
    env_data (committed s') = env_data (working s) /\
    (forall float_str data data_id,
       edc_index_id data = index_id ->
       edc_data_id data = Some data_id ->
       env_data (working s) !! data_id = None ->
       exists row s'',
         create_environment_data float_str data s' = (Ok row, s'') /\
         env_data (committed s'') !! data_id = Some row /\
         dat_monitor_value row = edc_monitor_value data /\
         (dat_is_abnormal row = true <->
          (supplied (miu_upper_threshold payload) (idx_upper_threshold r)
           <? edc_monitor_value data)%float = true \/
          (edc_monitor_value data
           <? supplied (miu_lower_threshold payload) (idx_lower_threshold r))%float
          = true)).
Proof.
  intros Hflush Hrole Hr Hkey.
  pose proof (update_monitor_index_found index_id payload s r Hflush Hr Hkey)
    as Hrun. simpl in Hrun.
  eexists _, _. split.
  - unfold Api.update_monitor_index. db_unfold.
    rewrite require_roles_allowed by done. rewrite Hrun. reflexivity.
  - split; [reflexivity |].
    intros float_str data data_id Hindex Hid Hfresh.
    eexists _, _. split.
    + apply create_environment_data_run; [exact Hid | exact Hfresh | reflexivity].
    + simpl. split; [apply lookup_insert_eq |]. split; [reflexivity |].
      unfold classify_reading. rewrite Hindex, lookup_insert_eq. simpl.
      destruct (supplied (miu_upper_threshold payload) (idx_upper_threshold r)
                <? edc_monitor_value data)%float eqn:Hup;
        [| destruct (edc_monitor_value data
                     <? supplied (miu_lower_threshold payload)
                          (idx_lower_threshold r))%float eqn:Hlow];
        simpl; intuition congruence.
Qed.

Lemma threshold_update_is_not_retroactive_witness :
  (flush_error Sample.session = false /\
   Api.role_type Sample.manager ∈ Api.managers /\
   indices (working Sample.session) !! "PM25" = Some Sample.pm25 /\
   idx_index_id Sample.pm25 = "PM25") /\
  exists r' s',
    Api.update_monitor_index "PM25" Scenario.lift_upper Sample.manager
      Sample.session = (Ok r', s') /\
    (dat_is_abnormal <$> env_data (committed s') !! "R5") = Some true /\
    (dat_monitor_value <$> env_data (committed s') !! "R5") = Some 90%float /\
    exists row s'',
      create_environment_data Sample.float_str
        (Api.set_data_id Scenario.anonymous_reading "R7") s' = (Ok row, s'') /\
      dat_monitor_value row = 90%float /\
      dat_is_abnormal row = false.
Proof.
  assert (Hrole : Api.role_type Sample.manager ∈ Api.managers)
    by (apply list_elem_of_here).
  split; [repeat split; exact Hrole |].
  destruct (threshold_update_is_not_retroactive "PM25" Scenario.lift_upper
              Sample.manager Sample.session Sample.pm25 eq_refl Hrole eq_refl
              eq_refl) as (r' & s' & Hrun & Hdata & Hlater).
  exists r', s'. split; [exact Hrun |]. rewrite Hdata.
  split; [reflexivity |]. split; [reflexivity |].
  destruct (Hlater Sample.float_str
              (Api.set_data_id Scenario.anonymous_reading "R7") "R7"
              eq_refl eq_refl eq_refl)
    as (row & s'' & Hcreate & _ & Hvalue & Hflag).
  exists row, s''. split; [exact Hcreate |]. split; [exact Hvalue |].
  apply not_true_is_false. intros Hab.
  apply Hflag in Hab as [Hab | Hab]; vm_compute in Hab; discriminate Hab.
Defined.

(** ** Auditing more than once *)

(** X17.  Two audits of a reading in a row leave the status of the second
    one, the reason given last (the original one when neither gave any) and
    the original abnormal flag; the committed store is the first store with
    that one row replaced.  Repeating an audit with the same arguments
    changes nothing but the update timestamp. *)
Theorem audits_compose (data_id status1 status2 : string)
    (reason1 reason2 : option string) (s : Session) (r : DataRow) :
  flush_error s = false ->
  env_data (working s) !! data_id = Some r ->
  exists r1 s1 r2 s2,
    update_data_audit_status data_id status1 reason1 s = (Ok (Some r1), s1) /\
    update_data_audit_status data_id status2 reason2 s1 = (Ok (Some r2), s2) /\
    dat_audit_status r2 = status2 /\
    dat_abnormal_reason r2
    = match reason2, reason1 with
      | Some reason, _ => Some reason
      | None, Some reason => Some reason
      | None, None => dat_abnormal_reason r
      end /\
    dat_is_abnormal r2 = dat_is_abnormal r /\
    committed s2
    = set_env_data (<[data_id := r2]> (env_data (working s))) (working s) /\
    (status1 = status2 -> reason1 = reason2 ->
     r2 = mkData (dat_data_id r1) (dat_index_id r1) (dat_device_id r1)
            (dat_collect_time r1) (dat_monitor_value r1) (dat_area_id r1)
            (dat_data_quality r1) (dat_is_abnormal r1) (dat_abnormal_reason r1)
            (dat_audit_status r1) (dat_created_at r1)
            (Some (clock s (S (ticks s))))).
Proof.
  intros Hflush Hr.
  pose proof (update_data_audit_status_found data_id status1 reason1 s r Hflush Hr)
    as Hrun1. cbv zeta in Hrun1.
  eexists _, _, _, _. split; [exact Hrun1 |]. split.
  - apply update_data_audit_status_found; [reflexivity |].
    cbn [working env_data set_env_data]. apply lookup_insert_eq.
  - cbn [working committed env_data set_env_data clock ticks indices devices
           areas calibrations].
    rewrite insert_insert_eq.
    split; [reflexivity |]. split; [by destruct reason1, reason2 |].
    split; [reflexivity |]. split; [reflexivity |].
    intros <- <-. unfold audited. simpl. by destruct reason1.
Qed.

Lemma audits_compose_witness :
  (flush_error Sample.session = false /\
   env_data (working Sample.session) !! "R0" = Some Sample.r0) /\
  exists r1 s1 r2 s2,
    update_data_audit_status "R0" "待核实" (Some "传感器漂移") Sample.session
    = (Ok (Some r1), s1) /\
    update_data_audit_status "R0" "已审核" None s1 = (Ok (Some r2), s2) /\
    dat_audit_status r2 = "已审核" /\
    dat_abnormal_reason r2 = Some "传感器漂移" /\
    dat_is_abnormal r2 = true.
Proof.
  split; [split; reflexivity |].
  destruct (audits_compose "R0" "待核实" "已审核" (Some "传感器漂移") None
              Sample.session Sample.r0 eq_refl eq_refl)
    as (r1 & s1 & r2 & s2 & H1 & H2 & Hst & Hreason & Hflag & _).
  exists r1, s1, r2, s2. repeat split; assumption.
Defined.

(** ** Registering and listing devices *)

Lemma create_monitor_device_run (identity : Z) (device : MonitorDeviceCreate)
    (s : Session) :
  devices (working s) !! identity = None ->
  flush_error s = false ->
  let n := match mdc_install_time device with
           | Some _ => ticks s
           | None => S (ticks s)
           end in
  let row :=
    mkDevice identity (mdc_type device) (mdc_deployment_area_id device)
             (Some (default (clock s (ticks s)) (mdc_install_time device)))
             (Some (mdc_calibration_cycle device))
             (mdc_last_calibration_time device) (mdc_status device)
             (mdc_communication_protocol device) (mdc_latitude device)
             (mdc_longitude device) (Some (clock s n)) (Some (clock s (S n))) in
  let st := set_devices (<[identity := row]> (devices (working s))) (working s) in
  Queries.create_monitor_device identity device s
  = (Ok row, mkSession st st false (st :: commit_log s) (clock s) (S (S n))).
Proof.
  intros Hfresh Hflush. unfold Queries.create_monitor_device. db_unfold.
  destruct (mdc_install_time device) as [t|]; simpl;
    unfold add_device, commit, refresh_device; simpl;
    rewrite Hfresh; simpl; rewrite Hflush; simpl;
    rewrite lookup_insert_eq; reflexivity.
Qed.

(** X18.  A device registered under the id the database assigns is
    committed with the submitted columns, the install time defaulting to
    the clock reading, and can be read back by that id.  If it comes with
    no last calibration time and a status other than offline, the
    calibration-due query run next returns it. *)
Theorem new_device_is_found_and_due (identity : Z) (device : MonitorDeviceCreate)
    (u : Api.User) (s : Session) :
  Api.role_type u ∈ Api.managers ->
  devices (working s) !! identity = None ->
  flush_error s = false ->
  exists row s',
    Handlers.create_monitor_device identity device u s = (Ok row, s') /\
    dev_id row = identity /\
    dev_install_time row
    = Some (default (clock s (ticks s)) (mdc_install_time device)) /\
    dev_calibration_cycle row = Some (mdc_calibration_cycle device) /\
    dev_status row = mdc_status device /\
    dev_last_calibration_time row = mdc_last_calibration_time device /\
    devices (committed s') = <[identity := row]> (devices (working s)) /\
    Handlers.get_monitor_device identity s' = (Ok row, s') /\
    (mdc_last_calibration_time device = None ->
     mdc_status device <> "离线" ->
     exists due, (get_devices_needing_calibration s').1 = Ok due /\ row ∈ due).
Proof.
  intros Hrole Hfresh Hflush.
  pose proof (create_monitor_device_run identity device s Hfresh Hflush) as Hrun.
  cbv zeta in Hrun.
  eexists _, _. split.
  - unfold Handlers.create_monitor_device. db_unfold.
    rewrite require_roles_allowed by done. exact Hrun.
  - do 6 (split; [reflexivity |]). split.
    + unfold Handlers.get_monitor_device, get_monitor_device. db_unfold.
      cbn [working devices set_devices]. by rewrite lookup_insert_eq.
    + intros Hlast Hstatus.
      eexists. split; [apply get_devices_needing_calibration_run |].
      apply elem_of_filter_bool. split.
      * apply elem_of_filter_bool. split.
        -- apply elem_of_table_values. exists identity.
           cbn [working devices set_devices]. apply lookup_insert_eq.
        -- cbn [dev_status]. apply negb_true_iff.
           by destruct (String.eqb_spec (mdc_status device) "离线").
      * unfold needs_calibration. cbn [dev_last_calibration_time].
        by rewrite Hlast.
Qed.

Lemma new_device_is_found_and_due_witness :
  (Api.role_type Sample.manager ∈ Api.managers /\
   devices (working Sample.session) !! 6 = None /\
   flush_error Sample.session = false) /\
  exists row s',
    Handlers.create_monitor_device 6 Scenario.new_device Sample.manager
      Sample.session = (Ok row, s') /\
    dev_install_time row = Some (Sample.day 100) /\
    Handlers.get_monitor_device 6 s' = (Ok row, s') /\
    exists due, (get_devices_needing_calibration s').1 = Ok due /\ row ∈ due.
Proof.
  assert (Hrole : Api.role_type Sample.manager ∈ Api.managers)
    by (apply list_elem_of_here).
  split; [repeat split; exact Hrole |].
  destruct (new_device_is_found_and_due 6 Scenario.new_device Sample.manager
              Sample.session Hrole eq_refl eq_refl)
    as (row & s' & Hrun & _ & Hinstall & _ & _ & _ & _ & Hget & Hdue).
  exists row, s'. split; [exact Hrun |]. split; [exact Hinstall |].
  split; [exact Hget |]. apply Hdue; [reflexivity | discriminate].
Defined.

(** Sorting by an integer key, smallest first. *)
Lemma sort_by_key_ascending {A} (key : A -> Z) (l : list A) :
  StronglySorted (fun a b => key a <= key b)
                 (sort_by (fun y x => key y <? key x) l).
Proof.
  apply Sorted_StronglySorted; [intros a b c Hab Hbc; lia |].
  assert (Hsorted : Sorted (in_order (fun y x => key y <? key x))
                           (sort_by (fun y x => key y <? key x) l)).
  { apply sort_by_sorted. intros a b Hab. apply Z.ltb_lt in Hab.
    apply Z.ltb_ge. lia. }
  induction Hsorted as [|a m Hm IH Hhd]; constructor; [exact IH |].
  destruct Hhd as [|b m Hab]; constructor.
  unfold in_order in Hab. by apply Z.ltb_ge in Hab.
Qed.

(** X19.  The device listing without an area returns every registered
    device, by ascending id; with an area it returns exactly the devices
    deployed in that area, so a device with no deployment area is in no
    area's listing. *)
Theorem device_listing (s : Session) :
  (exists everything,
     Handlers.list_monitor_devices None s = (Ok everything, s) /\
     (forall d, d ∈ everything <-> exists k, devices (working s) !! k = Some d) /\
     StronglySorted (fun a b => dev_id a <= dev_id b) everything) /\
  (forall area,
     exists listing,
       Handlers.list_monitor_devices (Some area) s = (Ok listing, s) /\
       (forall d,
          d ∈ listing <->
          (exists k, devices (working s) !! k = Some d) /\
          dev_deployment_area_id d = Some area)).
Proof.
  split.
  - eexists. split; [reflexivity |]. split; [| apply sort_by_key_ascending].
    intros d. by rewrite elem_of_sort_by, elem_of_table_values.
  - intros area. eexists. split; [reflexivity |].
    intros d. rewrite elem_of_filter_bool, elem_of_table_values.
    destruct (dev_deployment_area_id d) as [a|].
    + rewrite Z.eqb_eq. split; intros [Hk Ha]; (split; [exact Hk | congruence]).
    + split; intros [Hk Ha]; discriminate.
Qed.

(** ** Deleting a calibration record *)

Lemma delete_calibration_record_found (record_id : string) (s : Session)
    (r : CalibrationRow) :
  flush_error s = false ->
  calibrations (working s) !! record_id = Some r ->
  let st := set_calibrations (delete record_id (calibrations (working s)))
              (working s) in
  Queries.delete_calibration_record record_id s
  = (Ok true, mkSession st st false (st :: commit_log s) (clock s) (ticks s)).
Proof.
  intros Hflush Hr. unfold Queries.delete_calibration_record. db_unfold.
  rewrite Hr. unfold delete_calibration_row, commit. simpl. by rewrite Hflush.
Qed.

(** X20.  Deleting a calibration record does not undo what recording it did
    to the device: after a record is created for a registered device and
    then deleted, the ledger is back to what it was, while the device keeps
    the last calibration time the record gave it. *)
Theorem deleting_a_calibration_keeps_device_time (record : CalibrationRecordCreate)
    (record_id : string) (s : Session) (d : DeviceRow) :
  crc_record_id record = Some record_id ->
  calibrations (working s) !! record_id = None ->
  flush_error s = false ->
  devices (working s) !! crc_device_id record = Some d ->
  exists row s1 s2 d',
    create_calibration_record record s = (Ok row, s1) /\
    Queries.delete_calibration_record record_id s1 = (Ok true, s2) /\
    calibrations (committed s2) = calibrations (working s) /\
    devices (committed s2) !! crc_device_id record = Some d' /\
    dev_last_calibration_time d' = Some (crc_calibration_time record).
Proof.
  intros Hid Hfresh Hflush Hd.
  pose proof (create_calibration_record_run record record_id s Hid Hfresh Hflush)
    as Hrun. cbv zeta in Hrun. rewrite Hd in Hrun.
  eexists _, _, _, (calibrated d (crc_calibration_time record)
                      (clock s (S (S (ticks s))))).
  split; [exact Hrun |]. split.
  - eapply delete_calibration_record_found; [reflexivity |].
    cbn [working calibrations set_calibrations]. apply lookup_insert_eq.
  - cbn [working committed calibrations devices set_calibrations set_devices].
    split; [by rewrite delete_insert_id |].
    split; [apply lookup_insert_eq | reflexivity].
Qed.

Lemma deleting_a_calibration_keeps_device_time_witness :
  (crc_record_id Sample.calibration_today = Some "C1" /\
   calibrations (working Sample.session) !! "C1" = None /\
   flush_error Sample.session = false /\
   devices (working Sample.session) !! 2 = Some Sample.d2 /\
   dev_last_calibration_time Sample.d2 = Some (Sample.day 55)) /\
  exists row s1 s2 d',
    create_calibration_record Sample.calibration_today Sample.session
    = (Ok row, s1) /\
    Queries.delete_calibration_record "C1" s1 = (Ok true, s2) /\
    calibrations (committed s2) = calibrations Sample.store /\
    devices (committed s2) !! 2 = Some d' /\
    dev_last_calibration_time d' = Some (Sample.day 100).
Proof.
  split; [repeat split |].
  apply (deleting_a_calibration_keeps_device_time Sample.calibration_today "C1"
           Sample.session Sample.d2); reflexivity.
Defined.

(** ** Counts of the quality report *)

(** X21.  In every row of the quality report the counts are natural
    numbers and the qualified count does not exceed the total. *)
Theorem quality_counts_bounded (days : Z) (s : Session) :
  exists result,
    (get_device_data_quality_rate days s).1 = Ok result /\
    forall row, row ∈ result ->
      0 <= qr_qualified_count row <= qr_total_data_count row.
Proof.
  eexists. split; [apply get_device_data_quality_rate_run |].
  intros row Hrow.
  apply elem_of_sort_by, list_elem_of_In, in_map_iff in Hrow as (g & <- & Hg).
  apply list_elem_of_In, elem_of_device_quality_groups in Hg
    as (d & area & a & _ & _ & _ & ->).
  simpl. split; [apply Nat2Z.is_nonneg |]. apply Nat2Z.inj_le.
  unfold qualified_readings. apply filter_length_le.
Qed.
